(** * The narrative-points ledger of mynfini

    A shallow embedding of [NarrativePointsSystem]
    (mynfini/narrative_points_system_complete.py) and the properties of its
    earn / spend / reset / read operations.

    Python integers are unbounded, hence [Z].  The four [defaultdict]
    attributes of the class are finite maps keyed by the character id; the
    difference between [d[k]] (which stores the default under a missing key)
    and [d.get(k, dflt)] (which does not) is kept.  Python floats are
    IEEE-754 binary64 numbers, hence Rocq's primitive [float]. *)

From Stdlib Require Import ZArith Floats Lia.
From stdpp Require Import gmap strings list.

#[local] Set Warnings "-inexact-float".
#[local] Open Scope Z_scope.

(** ** Enumerations *)

Inductive NPEarningTrigger : Set :=
| RISK_TAKING
| ROLEPLAYING_DEPTH
| EMOTIONAL_INVESTMENT
| STORY_ADVANCEMENT
| CHARACTER_GROWTH
| SACRIFICIAL_CHOICE
| CREATIVE_PROBLEM_SOLVING
| DRAMATIC_TIMING
| RELATIONSHIP_DEVELOPMENT.

Inductive NPActivity : Set :=
| RETCON_SCENE
| INTRODUCE_ELEMENT
| EMPOWER_CHARACTER
| NARRATIVE_ESCAPE
| DRAMATIC_REVEAL
| CHARACTER_RETCON
| ENVIRONMENT_MANIPULATION
| FORESHADOWING.

(** The annotations [trigger: NPEarningTrigger] and [activity: NPActivity]
    are not enforced at run time: a caller can pass any object.  An argument
    is therefore either a member of the enumeration or a foreign hashable,
    non-[None] object, which is represented by its [repr] string. *)
Inductive trigger_arg : Set :=
| Trigger (t : NPEarningTrigger)
| ForeignTrigger (repr : string).

Inductive activity_arg : Set :=
| Activity (a : NPActivity)
| ForeignActivity (repr : string).

(** ** Records *)

(** [scene_context: Optional[Dict]] is an opaque blob, never inspected. *)
Definition Dict : Type := list (string * string).

Record NPTransaction : Type := mkNPTransaction {
  id : string;
  amount : Z;
  balance_after : Z;
  description : string;
  timestamp : Z;
  trigger : option trigger_arg;
  activity : option activity_arg;
  character_id : option string;
  scene_context : option Dict
}.

Record NarrativePointsSystem : Type := mkSystem {
  player_balances : gmap string Z;
  transaction_history : gmap string (list NPTransaction);
  earnings_this_session : gmap string Z;
  spending_this_session : gmap string Z;
  current_scene_points : Z
}.

(** What a call draws from its environment: [uuid.uuid4()] for the
    transaction id and [datetime.now()] for the timestamp default. *)
Record Env : Type := mkEnv {
  uuid4 : string;
  datetime_now : Z
}.

(** [__init__]: four empty [defaultdict]s and a zero scene counter. *)
Definition NarrativePointsSystem_init : NarrativePointsSystem :=
  {| player_balances := ∅;
     transaction_history := ∅;
     earnings_this_session := ∅;
     spending_this_session := ∅;
     current_scene_points := 0 |}.

(** The two configured tables of [__init__]; no method updates them. *)
Definition earning_rates (t : NPEarningTrigger) : Z :=
  match t with
  | RISK_TAKING => 2
  | ROLEPLAYING_DEPTH => 3
  | EMOTIONAL_INVESTMENT => 2
  | STORY_ADVANCEMENT => 1
  | CHARACTER_GROWTH => 2
  | SACRIFICIAL_CHOICE => 4
  | CREATIVE_PROBLEM_SOLVING => 2
  | DRAMATIC_TIMING => 1
  | RELATIONSHIP_DEVELOPMENT => 1
  end.

Definition activity_costs (a : NPActivity) : Z :=
  match a with
  | RETCON_SCENE => 5
  | INTRODUCE_ELEMENT => 3
  | EMPOWER_CHARACTER => 4
  | NARRATIVE_ESCAPE => 6
  | DRAMATIC_REVEAL => 2
  | CHARACTER_RETCON => 8
  | ENVIRONMENT_MANIPULATION => 3
  | FORESHADOWING => 2
  end.

(** [self.earning_rates.get(trigger, dflt)] and
    [self.activity_costs.get(activity, dflt)]. *)
Definition earning_rates_get (trigger : trigger_arg) (dflt : Z) : Z :=
  match trigger with
  | Trigger t => earning_rates t
  | ForeignTrigger _ => dflt
  end.

Definition activity_costs_get (activity : activity_arg) (dflt : Z) : Z :=
  match activity with
  | Activity a => activity_costs a
  | ForeignActivity _ => dflt
  end.

(** ** The state monad of the methods *)

Definition M (A : Type) : Type :=
  NarrativePointsSystem -> A * NarrativePointsSystem.

Definition ret {A : Type} (a : A) : M A := fun s => (a, s).

Definition bind {A B : Type} (m : M A) (k : A -> M B) : M B :=
  fun s => let (a, s') := m s in k a s'.

Notation "x <- m ;; k" := (bind m (fun x => k))
  (at level 100, m at next level, right associativity).
Notation "m ;;; k" := (bind m (fun _ => k))
  (at level 100, right associativity).

(** The value a method returns and the state it leaves. *)
Definition returned {A : Type} (m : M A) (s : NarrativePointsSystem) : A :=
  fst (m s).
Definition after {A : Type} (m : M A) (s : NarrativePointsSystem)
  : NarrativePointsSystem := snd (m s).

(** A dictionary attribute of the object: how to read and replace it. *)
Record attr (V : Type) : Type := mkAttr {
  attr_get : NarrativePointsSystem -> gmap string V;
  attr_set : gmap string V -> NarrativePointsSystem -> NarrativePointsSystem
}.
Arguments attr_get {V} _ _.
Arguments attr_set {V} _ _ _.

Definition balances : attr Z :=
  {| attr_get := player_balances;
     attr_set := fun d s =>
       {| player_balances := d;
          transaction_history := transaction_history s;
          earnings_this_session := earnings_this_session s;
          spending_this_session := spending_this_session s;
          current_scene_points := current_scene_points s |} |}.

Definition history : attr (list NPTransaction) :=
  {| attr_get := transaction_history;
     attr_set := fun d s =>
       {| player_balances := player_balances s;
          transaction_history := d;
          earnings_this_session := earnings_this_session s;
          spending_this_session := spending_this_session s;
          current_scene_points := current_scene_points s |} |}.

Definition earnings : attr Z :=
  {| attr_get := earnings_this_session;
     attr_set := fun d s =>
       {| player_balances := player_balances s;
          transaction_history := transaction_history s;
          earnings_this_session := d;
          spending_this_session := spending_this_session s;
          current_scene_points := current_scene_points s |} |}.

Definition spending : attr Z :=
  {| attr_get := spending_this_session;
     attr_set := fun d s =>
       {| player_balances := player_balances s;
          transaction_history := transaction_history s;
          earnings_this_session := earnings_this_session s;
          spending_this_session := d;
          current_scene_points := current_scene_points s |} |}.

Definition set_current_scene_points (v : Z) : M unit :=
  fun s =>
    (tt, {| player_balances := player_balances s;
            transaction_history := transaction_history s;
            earnings_this_session := earnings_this_session s;
            spending_this_session := spending_this_session s;
            current_scene_points := v |}).

Section DictOps.
Context {V : Type}.

(** [d[k]] on a [defaultdict]: a missing key is first bound to the
    default, and that binding stays. *)
Definition dd_getitem (d : attr V) (dflt : V) (k : string) : M V :=
  fun s =>
    match attr_get d s !! k with
    | Some v => (v, s)
    | None => (dflt, attr_set d (<[k := dflt]> (attr_get d s)) s)
    end.

(** [d[k] = v]. *)
Definition dd_setitem (d : attr V) (k : string) (v : V) : M unit :=
  fun s => (tt, attr_set d (<[k := v]> (attr_get d s)) s).

(** [d.get(k, dflt)]: a plain read. *)
Definition dict_get (d : attr V) (k : string) (dflt : V) : M V :=
  fun s => (default dflt (attr_get d s !! k), s).

(** [d.clear()]. *)
Definition dict_clear (d : attr V) : M unit :=
  fun s => (tt, attr_set d ∅ s).
End DictOps.

(** [d[k] += a] on a [defaultdict(int)]: read [d[k]], then store the sum. *)
Definition dd_iadd (d : attr Z) (k : string) (a : Z) : M unit :=
  v <- dd_getitem d 0 k ;; dd_setitem d k (v + a).

(** [d[k] -= a]. *)
Definition dd_isub (d : attr Z) (k : string) (a : Z) : M unit :=
  v <- dd_getitem d 0 k ;; dd_setitem d k (v - a).

(** [d[k].append(x)] on a [defaultdict(list)]. *)
Definition dd_append (d : attr (list NPTransaction)) (k : string)
    (x : NPTransaction) : M unit :=
  l <- dd_getitem d [] k ;; dd_setitem d k (l ++ [x]).

(** Truthiness of an [Optional[str]]: [None] and the empty string are
    false; a true one is handed on as the key it is. *)
Definition truthy (character_id : option string) : option string :=
  match character_id with
  | Some cid => if String.eqb cid "" then None else Some cid
  | None => None
  end.

(** ** The methods *)

Definition earn_points (env : Env) (trigger : trigger_arg)
    (description : string) (character_id : option string)
    (scene_context : option Dict) : M Z :=
  let amount := earning_rates_get trigger 1 in
  match truthy character_id with
  | Some cid =>
      old_balance <- dd_getitem balances 0 cid ;;
      dd_iadd balances cid amount ;;;
      new_balance <- dd_getitem balances 0 cid ;;
      let transaction :=
        {| id := uuid4 env;
           trigger := Some trigger;
           amount := amount;
           balance_after := new_balance;
           description := description;
           character_id := Some cid;
           scene_context := scene_context;
           timestamp := datetime_now env;
           activity := None |} in
      dd_append history cid transaction ;;;
      dd_iadd earnings cid amount ;;;
      ret amount
  | None => ret amount
  end.

Definition spend_points (env : Env) (activity : activity_arg)
    (description : string) (character_id : option string)
    (scene_context : option Dict) : M bool :=
  let character_id :=
    match truthy character_id with
    | Some cid => cid
    | None => "session_general"%string
    end in
  let cost := activity_costs_get activity 1 in
  balance <- dd_getitem balances 0 character_id ;;
  if balance >=? cost then
    old_balance <- dd_getitem balances 0 character_id ;;
    dd_isub balances character_id cost ;;;
    new_balance <- dd_getitem balances 0 character_id ;;
    let transaction :=
      {| id := uuid4 env;
         activity := Some activity;
         amount := cost;
         balance_after := new_balance;
         description := description;
         character_id := Some character_id;
         scene_context := scene_context;
         timestamp := datetime_now env;
         trigger := None |} in
    dd_append history character_id transaction ;;;
    dd_iadd spending character_id cost ;;;
    ret true
  else ret false.

Definition get_balance (character_id : string) : M Z :=
  dict_get balances character_id 0.

Definition get_session_earnings (character_id : string) : M Z :=
  dict_get earnings character_id 0.

Definition get_session_spending (character_id : string) : M Z :=
  dict_get spending character_id 0.

(** [l[start:]] for a list: a negative start counts from the end and is
    clipped at the front, a start past the end gives the empty list. *)
Definition slice_from (start : Z) (l : list NPTransaction)
  : list NPTransaction :=
  let len := Z.of_nat (length l) in
  let i := if start <? 0 then Z.max 0 (start + len) else Z.min start len in
  drop (Z.to_nat i) l.

(** [limit: int = None]; [if limit:] is false for [None] and for [0]. *)
Definition get_transaction_history (character_id : string)
    (limit : option Z) : M (list NPTransaction) :=
  history <- dict_get history character_id [] ;;
  match limit with
  | Some n => if n =? 0 then ret history else ret (slice_from (- n) history)
  | None => ret history
  end.

Definition calculate_narrative_pressure (character_id : string) : M float :=
  current_balance <- get_balance character_id ;;
  session_earnings <- get_session_earnings character_id ;;
  if current_balance <? 2 then ret 0.7%float
  else if current_balance <? 5 then ret 0.4%float
  else if current_balance <? 10 then ret 0.2%float
  else ret 0.0%float.

Definition reset_session_data : M unit :=
  dict_clear earnings ;;;
  dict_clear spending ;;;
  set_current_scene_points 0.

(** ** Floats *)

(** [float(n)] for a Python integer: the nearest binary64 number, ties to
    even; an integer too large for a float raises [OverflowError]
    ([None]). *)
Definition float_of_int (n : Z) : option float :=
  let f := SF2Prim (binary_normalize prec emax n 0 false) in
  if PrimFloat.is_infinity f then None else Some f.

(** [int(x)] for a Python float: truncation towards zero; an infinity or a
    NaN raises ([None]). *)
Definition int_of_float (x : float) : option Z :=
  match Prim2SF x with
  | S754_zero _ => Some 0
  | S754_finite sign m e =>
      let v :=
        match e with
        | Z0 => Z.pos m
        | Z.pos _ => Z.shiftl (Z.pos m) e
        | Z.neg _ => Z.shiftr (Z.pos m) (- e)
        end in
      Some (if sign then - v else v)
  | S754_infinity _ => None
  | S754_nan => None
  end.

(** [int(n * x)] with [n] an integer and [x] a float. *)
Definition int_of_product (n : Z) (x : float) : option Z :=
  match float_of_int n with
  | Some f => int_of_float (PrimFloat.mul f x)
  | None => None
  end.

(** [apply_narrative_pressure_bonus]: the pressure read is that of the
    default account, [calculate_narrative_pressure()] being called without
    an argument.  [None] stands for a raised exception. *)
Definition apply_narrative_pressure_bonus (trigger : trigger_arg)
    (original_amount : Z) : M (option Z) :=
  pressure <- calculate_narrative_pressure "session_general" ;;
  if PrimFloat.ltb 0.5%float pressure then
    match int_of_product original_amount 0.5%float with
    | Some v => let bonus := Z.max 1 v in ret (Some (original_amount + bonus))
    | None => ret None
    end
  else if PrimFloat.ltb 0.3%float pressure then
    match int_of_product original_amount 0.3%float with
    | Some v => let bonus := Z.max 1 v in ret (Some (original_amount + bonus))
    | None => ret None
    end
  else ret (Some original_amount).

(** ** Sequences of calls *)

Inductive call : Type :=
| Earn (env : Env) (trigger : trigger_arg) (description : string)
    (character_id : option string) (scene_context : option Dict)
| Spend (env : Env) (activity : activity_arg) (description : string)
    (character_id : option string) (scene_context : option Dict)
| ResetSession
| GetBalance (character_id : string)
| GetSessionEarnings (character_id : string)
| GetSessionSpending (character_id : string)
| GetTransactionHistory (character_id : string) (limit : option Z)
| CalculateNarrativePressure (character_id : string)
| ApplyNarrativePressureBonus (trigger : trigger_arg) (original_amount : Z).

(** The state a call leaves, whatever it returns. *)
Definition exec (c : call) (s : NarrativePointsSystem)
  : NarrativePointsSystem :=
  match c with
  | Earn env t d cid ctx => after (earn_points env t d cid ctx) s
  | Spend env a d cid ctx => after (spend_points env a d cid ctx) s
  | ResetSession => after reset_session_data s
  | GetBalance cid => after (get_balance cid) s
  | GetSessionEarnings cid => after (get_session_earnings cid) s
  | GetSessionSpending cid => after (get_session_spending cid) s
  | GetTransactionHistory cid limit =>
      after (get_transaction_history cid limit) s
  | CalculateNarrativePressure cid =>
      after (calculate_narrative_pressure cid) s
  | ApplyNarrativePressureBonus t n =>
      after (apply_narrative_pressure_bonus t n) s
  end.

Definition run (cs : list call) (s : NarrativePointsSystem)
  : NarrativePointsSystem := fold_left (fun s c => exec c s) cs s.

Definition is_reset (c : call) : bool :=
  match c with ResetSession => true | _ => false end.

(** ** Reading a transaction log *)

Inductive kind : Set := KEarn | KSpend.

(** A record made by [earn_points] carries a trigger and no activity, one
    made by [spend_points] an activity and no trigger. *)
Definition kind_of (tx : NPTransaction) : option kind :=
  match trigger tx, activity tx with
  | Some _, None => Some KEarn
  | None, Some _ => Some KSpend
  | _, _ => None
  end.

Definition signed_amount (tx : NPTransaction) : Z :=
  match kind_of tx with
  | Some KEarn => amount tx
  | Some KSpend => - amount tx
  | None => 0
  end.

(** Replaying a log from a zero balance. *)
Definition replay (log : list NPTransaction) : Z :=
  fold_left (fun b tx => b + signed_amount tx) log 0.

(** Total of the amounts of one kind in a log. *)
Definition total_of (k : kind) (log : list NPTransaction) : Z :=
  fold_left
    (fun acc tx =>
       match kind_of tx, k with
       | Some KEarn, KEarn | Some KSpend, KSpend => acc + amount tx
       | _, _ => acc
       end) log 0.

(** ** Observations *)

(** What the reading methods return, as functions of the object. *)
Definition balance_of (s : NarrativePointsSystem) (cid : string) : Z :=
  default 0 (player_balances s !! cid).

Definition log_of (s : NarrativePointsSystem) (cid : string)
  : list NPTransaction := default [] (transaction_history s !! cid).

Definition earned_of (s : NarrativePointsSystem) (cid : string) : Z :=
  default 0 (earnings_this_session s !! cid).

Definition spent_of (s : NarrativePointsSystem) (cid : string) : Z :=
  default 0 (spending_this_session s !! cid).

(** The transaction [earn_points] builds. *)
Definition earn_transaction (env : Env) (trigger : trigger_arg)
    (description : string) (cid : string) (scene_context : option Dict)
    (new_balance : Z) : NPTransaction :=
  {| id := uuid4 env;
     amount := earning_rates_get trigger 1;
     balance_after := new_balance;
     description := description;
     timestamp := datetime_now env;
     trigger := Some trigger;
     activity := None;
     character_id := Some cid;
     scene_context := scene_context |}.

Definition spend_transaction (env : Env) (activity : activity_arg)
    (description : string) (cid : string) (scene_context : option Dict)
    (new_balance : Z) : NPTransaction :=
  {| id := uuid4 env;
     amount := activity_costs_get activity 1;
     balance_after := new_balance;
     description := description;
     timestamp := datetime_now env;
     trigger := None;
     activity := Some activity;
     character_id := Some cid;
     scene_context := scene_context |}.

(** The account [spend_points] charges. *)
Definition charged_account (character_id : option string) : string :=
  match truthy character_id with
  | Some cid => cid
  | None => "session_general"%string
  end.

(** What one call does to the four observations of every account [k]:
    nothing, one credit, one debit, or the session reset.  The flag tells
    the reset apart. *)
Inductive effect (s s' : NarrativePointsSystem) : bool -> Prop :=
| unchanged :
    (forall k, balance_of s' k = balance_of s k) ->
    (forall k, log_of s' k = log_of s k) ->
    (forall k, earned_of s' k = earned_of s k) ->
    (forall k, spent_of s' k = spent_of s k) ->
    effect s s' false
| credited (cid : string) (tx : NPTransaction) :
    kind_of tx = Some KEarn ->
    1 <= amount tx ->
    (forall k, balance_of s' k =
       if decide (k = cid) then balance_of s k + amount tx
       else balance_of s k) ->
    (forall k, log_of s' k =
       if decide (k = cid) then log_of s k ++ [tx] else log_of s k) ->
    (forall k, earned_of s' k =
       if decide (k = cid) then earned_of s k + amount tx
       else earned_of s k) ->
    (forall k, spent_of s' k = spent_of s k) ->
    effect s s' false
| debited (cid : string) (tx : NPTransaction) :
    kind_of tx = Some KSpend ->
    1 <= amount tx <= balance_of s cid ->
    (forall k, balance_of s' k =
       if decide (k = cid) then balance_of s k - amount tx
       else balance_of s k) ->
    (forall k, log_of s' k =
       if decide (k = cid) then log_of s k ++ [tx] else log_of s k) ->
    (forall k, earned_of s' k = earned_of s k) ->
    (forall k, spent_of s' k =
       if decide (k = cid) then spent_of s k + amount tx
       else spent_of s k) ->
    effect s s' false
| session_reset :
    (forall k, balance_of s' k = balance_of s k) ->
    (forall k, log_of s' k = log_of s k) ->
    (forall k, earned_of s' k = 0) ->
    (forall k, spent_of s' k = 0) ->
    effect s s' true.

(** The invariants of the ledger, each over all accounts. *)
Definition log_matches_balance (s : NarrativePointsSystem) : Prop :=
  forall k, replay (log_of s k) = balance_of s k.

Definition balances_nonnegative (s : NarrativePointsSystem) : Prop :=
  forall k, 0 <= balance_of s k.

Definition session_matches_balance (s : NarrativePointsSystem) : Prop :=
  forall k, balance_of s k = earned_of s k - spent_of s k.

(** The pressure bands as the specification words them: 0.7 below 2, 0.4
    below 5, 0.2 below 10, and 0.0 from 10 on. *)
Definition pressure_of_balance (b : Z) : float :=
  if b <? 2 then 0.7%float
  else if b <? 5 then 0.4%float
  else if b <? 10 then 0.2%float
  else 0.0%float.

(** A sequence without a session reset. *)
Definition no_reset (cs : list call) : bool :=
  forallb (fun c => negb (is_reset c)) cs.

(** A concrete environment, and the first scenario of the specification:
    a player earns for taking a risk. *)
Definition alice_env : Env :=
  {| uuid4 := "1b4e28ba-2fa1-41d2-883f-0016d3cca427"; datetime_now := 0 |}.

Definition alice_earns : call :=
  Earn alice_env (Trigger RISK_TAKING) "took a leap" (Some "alice"%string) None.

Definition alice_foreshadows : call :=
  Spend alice_env (Activity FORESHADOWING) "hint dropped"
    (Some "alice"%string) None.

Definition alice_retcons : call :=
  Spend alice_env (Activity RETCON_SCENE) "undo disaster"
    (Some "alice"%string) None.

(** Runs the dictionary operations of a method body one lookup at a time. *)
Ltac dict_steps :=
  repeat (first
    [ match goal with
      | E : ?m !! ?k = _ |- context [?m !! ?k] => rewrite E
      end
    | rewrite lookup_insert_eq
    | rewrite insert_insert_eq ]; simpl).

(** ** The reporting methods *)

(** One entry of [get_active_opportunities], a dictionary with the five
    keys below. *)
Module Opportunity.
Record t : Type := mk {
  trigger : NPEarningTrigger;
  description : string;
  potential_reward : Z;
  difficulty : string;
  rarity : string
}.
End Opportunity.

(** Reading an attribute as a whole, as in
    [current_earnings = self.earnings_this_session]. *)
Definition attr_read {V : Type} (d : attr V) : M (gmap string V) :=
  fun s => (attr_get d s, s).

Definition get_active_opportunities : M (list Opportunity.t) :=
  current_earnings <- attr_read earnings ;;
  let opportunities := [] in
  let opportunities := opportunities ++
    [ {| Opportunity.trigger := CHARACTER_GROWTH;
         Opportunity.description :=
           "Show character development or emotional depth";
         Opportunity.potential_reward := earning_rates CHARACTER_GROWTH;
         Opportunity.difficulty := "medium";
         Opportunity.rarity := "common" |} ] in
  let opportunities := opportunities ++
    [ {| Opportunity.trigger := CREATIVE_PROBLEM_SOLVING;
         Opportunity.description :=
           "Solve problems creatively using environmental elements";
         Opportunity.potential_reward :=
           earning_rates CREATIVE_PROBLEM_SOLVING;
         Opportunity.difficulty := "medium";
         Opportunity.rarity := "common" |} ] in
  let opportunities := opportunities ++
    [ {| Opportunity.trigger := RISK_TAKING;
         Opportunity.description :=
           "Take meaningful risks for story advancement";
         Opportunity.potential_reward := earning_rates RISK_TAKING;
         Opportunity.difficulty := "high";
         Opportunity.rarity := "uncommon" |} ] in
  let opportunities := opportunities ++
    [ {| Opportunity.trigger := SACRIFICIAL_CHOICE;
         Opportunity.description :=
           "Make significant personal sacrifice for others or story";
         Opportunity.potential_reward := earning_rates SACRIFICIAL_CHOICE;
         Opportunity.difficulty := "very_high";
         Opportunity.rarity := "rare" |} ] in
  ret opportunities.

(** [context] is accepted and not looked at; [suggestions[:5]] keeps at
    most the first five. *)
Definition generate_narrative_suggestions (character_id : string)
    (context : option Dict) : M (list string) :=
  let suggestions := [] in
  opportunities <- get_active_opportunities ;;
  current_balance <- get_balance character_id ;;
  let suggestions :=
    if current_balance <? 3 then
      (suggestions ++
       ["Consider taking a risk or showing emotional investment"])
      ++ ["Look for ways to advance the story meaningfully"]
    else suggestions in
  let suggestions := suggestions ++
    [ "Develop character relationships or show personal growth";
      "Use creative problem-solving with environmental elements";
      "Time high-drama moments for maximum narrative impact" ]%string in
  ret (take 5 suggestions).

(** [sum(d.values())] for a dictionary of integers. *)
Definition dict_sum (d : gmap string Z) : Z :=
  map_fold (fun _ v acc => acc + v) 0 d.

(** [a / b] for two Python integers: the exact quotient rounded once to
    the nearest float, ties to even.  Division by zero and a quotient too
    large for a float raise ([None]). *)
Definition spec_float_of_int (n : Z) : spec_float :=
  match n with
  | Z0 => S754_zero false
  | Z.pos m => S754_finite false m 0
  | Z.neg m => S754_finite true m 0
  end.

Definition int_truediv (a b : Z) : option float :=
  if b =? 0 then None
  else
    match SFdiv prec emax (spec_float_of_int a) (spec_float_of_int b) with
    | S754_infinity _ => None
    | q => Some (SF2Prim q)
    end.

(** The dictionary [get_system_status] returns. *)
Module Status.
Record t : Type := mk {
  narrative_points_system : bool;
  total_points_held : Z;
  earnings_this_session : Z;
  spending_this_session : Z;
  average_earning_per_session : float;
  active_opportunities : Z;
  pressure_level : float
}.
End Status.

(** [None] stands for the [OverflowError] of the division. *)
Definition get_system_status : M (option Status.t) :=
  earned <- attr_read earnings ;;
  let total_earned := dict_sum earned in
  spent <- attr_read spending ;;
  let total_spent := dict_sum spent in
  held <- attr_read balances ;;
  match int_truediv total_earned (Z.max 1 (Z.of_nat (size earned))) with
  | Some average =>
      opportunities <- get_active_opportunities ;;
      pressure <- calculate_narrative_pressure "session_general" ;;
      ret (Some
        {| Status.narrative_points_system := true;
           Status.total_points_held := dict_sum held;
           Status.earnings_this_session := total_earned;
           Status.spending_this_session := total_spent;
           Status.average_earning_per_session := average;
           Status.active_opportunities := Z.of_nat (length opportunities);
           Status.pressure_level := pressure |})
  | None => ret None
  end.

(** ** What a log records *)

(** A record as [earn_points] or [spend_points] writes it: a trigger with
    the amount the rate table gives it, or an activity with the amount the
    cost table gives it. *)
Definition well_recorded (tx : NPTransaction) : Prop :=
  match trigger tx, activity tx with
  | Some t, None => amount tx = earning_rates_get t 1
  | None, Some a => amount tx = activity_costs_get a 1
  | _, _ => False
  end.

(** Every [balance_after] of a log is the running balance, started at
    [b]. *)
Fixpoint snapshots_from (b : Z) (log : list NPTransaction) : Prop :=
  match log with
  | [] => True
  | tx :: rest =>
      balance_after tx = b + signed_amount tx /\
      snapshots_from (b + signed_amount tx) rest
  end.

(** The account a call writes to, if it writes. *)
Definition written_account (c : call) : option string :=
  match c with
  | Earn _ _ _ account _ => truthy account
  | Spend _ _ _ account _ => Some (charged_account account)
  | _ => None
  end.

(** The entries of one key in the four dictionaries. *)
Definition entries (s : NarrativePointsSystem) (k : string)
  : option Z * option (list NPTransaction) * option Z * option Z :=
  (player_balances s !! k, transaction_history s !! k,
   earnings_this_session s !! k, spending_this_session s !! k).

(** Two objects that differ at most in balance entries that read the
    same: every balance reads alike, and the histories, both session
    dictionaries and the scene counter are identical. *)
Definition same_ledger (s1 s2 : NarrativePointsSystem) : Prop :=
  (forall k, balance_of s1 k = balance_of s2 k) /\
  transaction_history s1 = transaction_history s2 /\
  earnings_this_session s1 = earnings_this_session s2 /\
  spending_this_session s1 = spending_this_session s2 /\
  current_scene_points s1 = current_scene_points s2.



(** * Properties *)

(** ** The state a method leaves *)

Section Effects.
Implicit Types (s : NarrativePointsSystem) (cid : string).

Lemma get_balance_eq cid s : get_balance cid s = (balance_of s cid, s).
Proof. reflexivity. Qed.

Lemma get_session_earnings_eq cid s :
  get_session_earnings cid s = (earned_of s cid, s).
Proof. reflexivity. Qed.

Lemma get_session_spending_eq cid s :
  get_session_spending cid s = (spent_of s cid, s).
Proof. reflexivity. Qed.

Lemma get_transaction_history_None cid s :
  get_transaction_history cid None s = (log_of s cid, s).
Proof. reflexivity. Qed.

Lemma earn_points_falsy env t d c ctx s :
  truthy c = None ->
  earn_points env t d c ctx s = (earning_rates_get t 1, s).
Proof. intros H. unfold earn_points. rewrite H. reflexivity. Qed.

Lemma earn_points_truthy env t d c ctx s cid :
  truthy c = Some cid ->
  earn_points env t d c ctx s =
  (earning_rates_get t 1,
   {| player_balances :=
        <[cid := balance_of s cid + earning_rates_get t 1]> (player_balances s);
      transaction_history :=
        <[cid := log_of s cid ++
                 [earn_transaction env t d cid ctx
                    (balance_of s cid + earning_rates_get t 1)]]>
          (transaction_history s);
      earnings_this_session :=
        <[cid := earned_of s cid + earning_rates_get t 1]>
          (earnings_this_session s);
      spending_this_session := spending_this_session s;
      current_scene_points := current_scene_points s |}).
Proof.
  intros H. unfold earn_points. rewrite H.
  unfold balance_of, log_of, earned_of, earn_transaction.
  unfold bind, dd_iadd, dd_append, dd_getitem, dd_setitem, ret, bind; simpl.
  destruct (player_balances s !! cid) as [b|] eqn:Eb;
    destruct (transaction_history s !! cid) as [l|] eqn:El;
    destruct (earnings_this_session s !! cid) as [e|] eqn:Ee;
    simpl; dict_steps; reflexivity.
Qed.


Lemma spend_points_afforded env a d c ctx s :
  activity_costs_get a 1 <= balance_of s (charged_account c) ->
  spend_points env a d c ctx s =
  (true,
   let cid := charged_account c in
   let cost := activity_costs_get a 1 in
   {| player_balances := <[cid := balance_of s cid - cost]> (player_balances s);
      transaction_history :=
        <[cid := log_of s cid ++
                 [spend_transaction env a d cid ctx (balance_of s cid - cost)]]>
          (transaction_history s);
      earnings_this_session := earnings_this_session s;
      spending_this_session :=
        <[cid := spent_of s cid + cost]> (spending_this_session s);
      current_scene_points := current_scene_points s |}).
Proof.
  unfold spend_points, charged_account, balance_of, log_of, spent_of,
    spend_transaction.
  destruct (truthy c) as [cid|]; intros Hle;
    unfold bind, dd_isub, dd_iadd, dd_append, dd_getitem, dd_setitem, ret,
      bind; simpl;
    match goal with
    | |- context [player_balances s !! ?k] =>
        destruct (player_balances s !! k) as [b|] eqn:Eb;
        destruct (transaction_history s !! k) as [l|] eqn:El;
        destruct (spending_this_session s !! k) as [e|] eqn:Ee
    end; simpl in *;
    match goal with
    | |- context [?x >=? ?y] =>
        replace (x >=? y) with true by (symmetry; apply Z.geb_le; lia)
    end; simpl; dict_steps; reflexivity.
Qed.

Lemma spend_points_refused env a d c ctx s :
  balance_of s (charged_account c) < activity_costs_get a 1 ->
  spend_points env a d c ctx s =
  (false,
   let cid := charged_account c in
   {| player_balances := <[cid := balance_of s cid]> (player_balances s);
      transaction_history := transaction_history s;
      earnings_this_session := earnings_this_session s;
      spending_this_session := spending_this_session s;
      current_scene_points := current_scene_points s |}).
Proof.
  unfold spend_points, charged_account, balance_of.
  destruct (truthy c) as [cid|]; intros Hlt;
    unfold bind, dd_getitem, ret; simpl;
    match goal with
    | |- context [player_balances s !! ?k] =>
        destruct (player_balances s !! k) as [b|] eqn:Eb
    end; simpl in *;
    match goal with
    | |- context [?x >=? ?y] =>
        replace (x >=? y) with false
          by (symmetry; apply not_true_is_false; rewrite Z.geb_le; lia)
    end; simpl; rewrite ?(insert_id _ _ _ Eb); destruct s; reflexivity.
Qed.

Lemma reset_session_data_eq s :
  reset_session_data s =
  (tt,
   {| player_balances := player_balances s;
      transaction_history := transaction_history s;
      earnings_this_session := ∅;
      spending_this_session := ∅;
      current_scene_points := 0 |}).
Proof. reflexivity. Qed.

Lemma calculate_narrative_pressure_pure cid s :
  after (calculate_narrative_pressure cid) s = s.
Proof.
  unfold after, calculate_narrative_pressure, get_balance,
    get_session_earnings, dict_get, bind, ret; simpl.
  repeat case_match; reflexivity.
Qed.

Lemma get_transaction_history_pure cid limit s :
  after (get_transaction_history cid limit) s = s.
Proof.
  unfold after, get_transaction_history, dict_get, bind, ret; simpl.
  repeat case_match; reflexivity.
Qed.

Lemma apply_narrative_pressure_bonus_pure t n s :
  after (apply_narrative_pressure_bonus t n) s = s.
Proof.
  unfold after, apply_narrative_pressure_bonus, bind.
  pose proof (calculate_narrative_pressure_pure "session_general" s) as Hp.
  unfold after in Hp.
  destruct (calculate_narrative_pressure "session_general" s) as [p s'].
  simpl in Hp. subst s'. unfold ret.
  repeat case_match; reflexivity.
Qed.

(** The reading calls leave the object as it is. *)
Lemma exec_read c s :
  match c with Earn _ _ _ _ _ | Spend _ _ _ _ _ | ResetSession => True
  | _ => exec c s = s end.
Proof.
  destruct c; simpl; trivial;
    auto using calculate_narrative_pressure_pure,
      get_transaction_history_pure, apply_narrative_pressure_bonus_pure.
Qed.

End Effects.

(** ** What one call does to the observations *)

Section Steps.
Implicit Types (s : NarrativePointsSystem) (k cid : string) (c : call).

Lemma earning_rates_get_pos t : 1 <= earning_rates_get t 1.
Proof. destruct t as [[]|]; simpl; lia. Qed.

Lemma activity_costs_get_pos a : 1 <= activity_costs_get a 1.
Proof. destruct a as [[]|]; simpl; lia. Qed.

(** Reading a map after one key was stored. *)
Lemma default_insert {V : Type} (m : gmap string V) (dflt v : V) cid k :
  default dflt (<[cid := v]> m !! k) =
  if decide (k = cid) then v else default dflt (m !! k).
Proof.
  destruct (decide (k = cid)) as [->|Hne].
  - by rewrite lookup_insert_eq.
  - by rewrite lookup_insert_ne.
Qed.

Lemma default_insert_same {V : Type} (m : gmap string V) (dflt : V) cid k :
  default dflt (<[cid := default dflt (m !! cid)]> m !! k) =
  default dflt (m !! k).
Proof. rewrite default_insert. by destruct (decide (k = cid)) as [->|]. Qed.

Lemma exec_effect c s : effect s (exec c s) (is_reset c).
Proof.
  destruct c as [env t d c ctx|env a d c ctx| | | | | | |]; simpl.
  - unfold after. destruct (truthy c) as [cid|] eqn:Hc.
    + rewrite (earn_points_truthy _ _ _ _ _ _ _ Hc); simpl.
      apply (credited _ _ cid
        (earn_transaction env t d cid ctx
           (balance_of s cid + earning_rates_get t 1)));
        [reflexivity | apply earning_rates_get_pos | ..];
        intros k; unfold balance_of, log_of, earned_of, spent_of; simpl;
        rewrite ?default_insert; repeat case_decide; subst; reflexivity.
    + rewrite (earn_points_falsy _ _ _ _ _ _ Hc); simpl.
      by apply unchanged.
  - unfold after.
    destruct (Z_le_gt_dec (activity_costs_get a 1)
                (balance_of s (charged_account c))) as [Hle|Hgt].
    + rewrite (spend_points_afforded _ _ _ _ _ _ Hle); simpl.
      apply (debited _ _ (charged_account c)
        (spend_transaction env a d (charged_account c) ctx
           (balance_of s (charged_account c) - activity_costs_get a 1)));
        [reflexivity | split; [apply activity_costs_get_pos | exact Hle] | ..];
        intros k; unfold balance_of, log_of, earned_of, spent_of; simpl;
        rewrite ?default_insert; repeat case_decide; subst; reflexivity.
    + rewrite (spend_points_refused env a d c ctx s) by lia; simpl.
      apply unchanged; intros k; try reflexivity.
      unfold balance_of; simpl. apply default_insert_same.
  - by apply session_reset.
  - by apply unchanged.
  - by apply unchanged.
  - by apply unchanged.
  - rewrite get_transaction_history_pure. by apply unchanged.
  - rewrite calculate_narrative_pressure_pure. by apply unchanged.
  - rewrite apply_narrative_pressure_bonus_pure. by apply unchanged.
Qed.

(** A property kept by every call holds along every sequence. *)
Lemma run_invariant (P : NarrativePointsSystem -> Prop) :
  (forall c s, P s -> P (exec c s)) ->
  forall cs s, P s -> P (run cs s).
Proof.
  intros Hstep cs. induction cs as [|c cs IH]; intros s Hs; simpl.
  - exact Hs.
  - apply IH, Hstep, Hs.
Qed.

Lemma run_invariant_where (Q : call -> bool)
    (P : NarrativePointsSystem -> Prop) :
  (forall c s, Q c = true -> P s -> P (exec c s)) ->
  forall cs s, forallb Q cs = true -> P s -> P (run cs s).
Proof.
  intros Hstep cs. induction cs as [|c cs IH]; intros s Hq Hs; simpl in *.
  - exact Hs.
  - apply andb_true_iff in Hq as [Hc Hcs]. apply IH; auto.
Qed.

Lemma run_app cs1 cs2 s : run (cs1 ++ cs2) s = run cs2 (run cs1 s).
Proof. unfold run. apply fold_left_app. Qed.

End Steps.

(** ** A session played through *)

(** An earn for taking a risk, an afforded spend and a refused one: the
    refused spend leaves no record. *)
Example alice_session :
  let s := run [alice_earns; alice_foreshadows; alice_retcons]
             NarrativePointsSystem_init in
  returned (get_balance "alice") s = 0 /\
  returned (get_session_earnings "alice") s = 2 /\
  returned (get_session_spending "alice") s = 2 /\
  map amount (returned (get_transaction_history "alice" None) s) = [2; 2] /\
  map kind_of (returned (get_transaction_history "alice" None) s) =
    [Some KEarn; Some KSpend] /\
  map balance_after (returned (get_transaction_history "alice" None) s) =
    [2; 0] /\
  returned (spend_points alice_env (Activity RETCON_SCENE) "undo disaster"
              (Some "alice"%string) None)
    (run [alice_earns; alice_foreshadows] NarrativePointsSystem_init) = false.
Proof. vm_compute. repeat split. Qed.

(** The bonus helper truncates: 7 under high pressure gains [int(3.5)],
    3 under medium pressure gains [max(1, int(0.9))]. *)
Example bonus_by_hand :
  returned (apply_narrative_pressure_bonus (Trigger SACRIFICIAL_CHOICE) 7)
    NarrativePointsSystem_init = Some 10 /\
  returned (apply_narrative_pressure_bonus (Trigger ROLEPLAYING_DEPTH) 3)
    (run [Earn alice_env (Trigger ROLEPLAYING_DEPTH) "in character"
            (Some "session_general"%string) None]
       NarrativePointsSystem_init) = Some 4 /\
  returned (get_transaction_history "alice" (Some (-1)))
    (run [alice_earns; alice_foreshadows] NarrativePointsSystem_init) =
  drop 1 (returned (get_transaction_history "alice" None)
            (run [alice_earns; alice_foreshadows] NarrativePointsSystem_init)).
Proof. vm_compute. repeat split. Qed.

(** ** Transaction logs *)

Section Logs.
Implicit Types (log : list NPTransaction) (tx : NPTransaction).

Lemma replay_snoc log tx : replay (log ++ [tx]) = replay log + signed_amount tx.
Proof. unfold replay. by rewrite fold_left_app. Qed.

Lemma total_of_snoc k log tx :
  total_of k (log ++ [tx]) =
  total_of k log +
  match kind_of tx, k with
  | Some KEarn, KEarn | Some KSpend, KSpend => amount tx
  | _, _ => 0
  end.
Proof.
  unfold total_of. rewrite fold_left_app. simpl.
  destruct (kind_of tx) as [[]|], k; lia.
Qed.

(** A replay is the credits minus the debits. *)
Lemma replay_totals log :
  replay log = total_of KEarn log - total_of KSpend log.
Proof.
  induction log as [|tx log IH] using rev_ind; [reflexivity|].
  rewrite replay_snoc, !total_of_snoc, IH. unfold signed_amount.
  destruct (kind_of tx) as [[]|]; lia.
Qed.

End Logs.

(** ** Invariants of the ledger *)

Section Invariants.
Implicit Types (s : NarrativePointsSystem) (k cid : string) (c : call).

Lemma log_matches_balance_step c s :
  log_matches_balance s -> log_matches_balance (exec c s).
Proof.
  intros Hs k. specialize (Hs k).
  destruct (exec_effect c s)
    as [Hb Hl _ _|cid tx Hk _ Hb Hl _ _|cid tx Hk _ Hb Hl _ _|Hb Hl _ _];
    rewrite Hb, Hl; try assumption;
    case_decide; try assumption;
    rewrite replay_snoc; unfold signed_amount; rewrite Hk; lia.
Qed.

Lemma balances_nonnegative_step c s :
  balances_nonnegative s -> balances_nonnegative (exec c s).
Proof.
  intros Hs k. pose proof (Hs k) as Hk.
  destruct (exec_effect c s)
    as [Hb _ _ _|cid tx _ Ha Hb _ _ _|cid tx _ Ha Hb _ _ _|Hb _ _ _];
    rewrite Hb; try assumption; case_decide; subst; lia.
Qed.

Lemma session_matches_balance_step c s :
  is_reset c = false ->
  session_matches_balance s -> session_matches_balance (exec c s).
Proof.
  intros Hc Hs k. specialize (Hs k).
  destruct (exec_effect c s)
    as [Hb _ He Hp|cid tx _ _ Hb _ He Hp|cid tx _ _ Hb _ He Hp|];
    try discriminate; rewrite Hb, He, Hp; try assumption;
    case_decide; lia.
Qed.

Lemma init_log_matches_balance :
  log_matches_balance NarrativePointsSystem_init.
Proof. intros k. reflexivity. Qed.

Lemma init_balances_nonnegative :
  balances_nonnegative NarrativePointsSystem_init.
Proof. intros k. unfold balance_of. simpl. by rewrite lookup_empty. Qed.

Lemma init_session_matches_balance :
  session_matches_balance NarrativePointsSystem_init.
Proof. intros k. reflexivity. Qed.

End Invariants.

(** ** Spending *)

(** C1. A spend is all or nothing.  With [cid] the account charged and
    [cost] the activity's cost: when the balance is below the cost the call
    returns false, every account reads the same balance as before (the
    balances dictionary differs at most by the key [cid] now bound to the
    balance it already read as) and the histories and both session counters
    are the very same dictionaries;
    otherwise it returns true, the balance of [cid] is lower by exactly
    [cost], exactly one spend transaction of amount [cost] is appended to
    the history of [cid], its session spend counter is higher by [cost],
    the session earn counters are untouched and no other account changes. *)
Theorem spend_points_all_or_nothing (env : Env) (act : activity_arg)
    (descr : string) (account : option string) (ctx : option Dict)
    (s : NarrativePointsSystem) :
  let cid := charged_account account in
  let cost := activity_costs_get act 1 in
  let spend := spend_points env act descr account ctx in
  let s' := after spend s in
  if decide (returned (get_balance cid) s < cost) then
    returned spend s = false /\
    (forall k, returned (get_balance k) s' = returned (get_balance k) s) /\
    player_balances s' =
      <[cid := returned (get_balance cid) s]> (player_balances s) /\
    transaction_history s' = transaction_history s /\
    earnings_this_session s' = earnings_this_session s /\
    spending_this_session s' = spending_this_session s /\
    current_scene_points s' = current_scene_points s
  else
    returned spend s = true /\
    returned (get_balance cid) s' = returned (get_balance cid) s - cost /\
    (exists tx,
       returned (get_transaction_history cid None) s' =
         returned (get_transaction_history cid None) s ++ [tx] /\
       kind_of tx = Some KSpend /\ activity tx = Some act /\
       amount tx = cost /\
       balance_after tx = returned (get_balance cid) s - cost) /\
    returned (get_session_spending cid) s' =
      returned (get_session_spending cid) s + cost /\
    earnings_this_session s' = earnings_this_session s /\
    current_scene_points s' = current_scene_points s /\
    (forall k, k <> cid ->
       returned (get_balance k) s' = returned (get_balance k) s /\
       returned (get_transaction_history k None) s' =
         returned (get_transaction_history k None) s /\
       returned (get_session_spending k) s' =
         returned (get_session_spending k) s).
Proof.
  intros cid cost spend s'. subst s' spend. unfold returned, after.
  simpl (fst (get_balance _ _)). simpl (fst (get_session_spending _ _)).
  simpl (fst (get_transaction_history _ _ _)).
  fold (balance_of s cid) (log_of s cid) (spent_of s cid).
  case_decide as Hlt.
  - rewrite (spend_points_refused env act descr account ctx s Hlt). simpl.
    repeat split. intros k. apply default_insert_same.
  - rewrite (spend_points_afforded env act descr account ctx s)
      by (subst cid cost; lia).
    simpl. fold cid cost.
    rewrite !default_insert, !decide_True by reflexivity.
    repeat split.
    + eexists. repeat split.
    + rewrite default_insert, decide_False by assumption. reflexivity.
    + rewrite default_insert, decide_False by assumption. reflexivity.
    + rewrite default_insert, decide_False by assumption. reflexivity.
Qed.

(** ** Balances along a run *)

Lemma run_log_matches_balance (cs : list call) (cid : string) :
  replay (log_of (run cs NarrativePointsSystem_init) cid) =
  balance_of (run cs NarrativePointsSystem_init) cid.
Proof.
  apply (run_invariant log_matches_balance log_matches_balance_step cs _
           init_log_matches_balance).
Qed.

(** C2. After any sequence of calls on a new ledger, replaying an account's
    full history from zero (plus the amount of an earn, minus the amount of
    a spend) gives the balance [get_balance] returns. *)
Theorem replay_reproduces_balance (cs : list call) (cid : string) :
  let s := run cs NarrativePointsSystem_init in
  replay (returned (get_transaction_history cid None) s) =
  returned (get_balance cid) s.
Proof.
  intros s. subst s. apply run_log_matches_balance.
Qed.

(** C4. After any sequence of calls on a new ledger no balance is negative;
    and a spend that costs more than the balance is refused with the
    balance left as it was (not clamped), while an afforded one leaves
    balance minus cost, which is not negative. *)
Theorem balance_never_negative (cs : list call) (cid : string) :
  let s := run cs NarrativePointsSystem_init in
  0 <= returned (get_balance cid) s /\
  forall env act descr account ctx,
    let acc := charged_account account in
    let cost := activity_costs_get act 1 in
    let spend := spend_points env act descr account ctx in
    let b := returned (get_balance acc) s in
    let b' := returned (get_balance acc) (after spend s) in
    0 <= b' /\
    if decide (b < cost) then returned spend s = false /\ b' = b
    else returned spend s = true /\ b' = b - cost.
Proof.
  intros s. subst s. set (s := run cs NarrativePointsSystem_init).
  assert (Hs : balances_nonnegative s)
    by apply (run_invariant balances_nonnegative balances_nonnegative_step
                cs _ init_balances_nonnegative).
  split; [apply Hs|].
  intros env act descr account ctx acc cost spend b b'.
  split.
  - apply (balances_nonnegative_step (Spend env act descr account ctx) s Hs).
  - subst b b' spend. unfold returned, after.
    simpl (fst (get_balance _ _)). fold (balance_of s acc).
    case_decide as Hlt.
    + rewrite (spend_points_refused env act descr account ctx s Hlt). simpl.
      split; [reflexivity|]. apply default_insert_same.
    + rewrite (spend_points_afforded env act descr account ctx s)
        by (subst acc cost; lia).
      simpl. fold acc cost.
      split; [reflexivity|]. by rewrite default_insert, decide_True.
Qed.

(** ** Earned and spent totals *)

Section Totals.
Implicit Types (s : NarrativePointsSystem) (k cid : string) (c : call).

Lemma totals_step c s cid :
  total_of KEarn (log_of s cid) <= total_of KEarn (log_of (exec c s) cid) /\
  total_of KSpend (log_of s cid) <= total_of KSpend (log_of (exec c s) cid).
Proof.
  destruct (exec_effect c s)
    as [_ Hl _ _|acc tx Hk Ha _ Hl _ _|acc tx Hk Ha _ Hl _ _|_ Hl _ _];
    rewrite Hl; try (split; reflexivity);
    case_decide; try (split; reflexivity);
    rewrite !total_of_snoc, Hk; lia.
Qed.

Lemma session_counters_step c s cid :
  is_reset c = false ->
  earned_of s cid <= earned_of (exec c s) cid /\
  spent_of s cid <= spent_of (exec c s) cid.
Proof.
  intros Hc.
  destruct (exec_effect c s)
    as [_ _ He Hp|acc tx _ Ha _ _ He Hp|acc tx _ Ha _ _ He Hp|];
    try discriminate; rewrite He, Hp; try case_decide; lia.
Qed.

(** No sequence of calls lowers a total of the log. *)
Lemma totals_run cs s cid :
  total_of KEarn (log_of s cid) <= total_of KEarn (log_of (run cs s) cid) /\
  total_of KSpend (log_of s cid) <= total_of KSpend (log_of (run cs s) cid).
Proof.
  revert s. induction cs as [|c cs IH]; intros s; simpl.
  - split; reflexivity.
  - destruct (totals_step c s cid) as [He Hp].
    destruct (IH (exec c s)) as [He' Hp']. split; lia.
Qed.

Lemma no_reset_session_matches_balance cs :
  no_reset cs = true ->
  session_matches_balance (run cs NarrativePointsSystem_init).
Proof.
  intros Hcs.
  apply (run_invariant_where (fun c => negb (is_reset c))
           session_matches_balance); auto using init_session_matches_balance.
  intros c s Hc. apply session_matches_balance_step.
  by apply negb_true_iff.
Qed.

End Totals.

(** The session counters are not the totals ever earned and spent: after
    one earn and a session reset the balance of "alice" is 2 while her
    session-earned and session-spent counters are both 0, and the
    session-earned counter has gone down from 2 to 0. *)
Lemma reset_breaks_earned_minus_spent :
  returned (get_balance "alice")
    (run [alice_earns; ResetSession] NarrativePointsSystem_init) = 2 /\
  returned (get_session_earnings "alice")
    (run [alice_earns; ResetSession] NarrativePointsSystem_init) = 0 /\
  returned (get_session_spending "alice")
    (run [alice_earns; ResetSession] NarrativePointsSystem_init) = 0 /\
  returned (get_balance "alice")
    (run [alice_earns; ResetSession] NarrativePointsSystem_init) <>
  returned (get_session_earnings "alice")
    (run [alice_earns; ResetSession] NarrativePointsSystem_init) -
  returned (get_session_spending "alice")
    (run [alice_earns; ResetSession] NarrativePointsSystem_init) /\
  returned (get_session_earnings "alice")
    (run [alice_earns; ResetSession] NarrativePointsSystem_init) <
  returned (get_session_earnings "alice")
    (run [alice_earns] NarrativePointsSystem_init).
Proof. vm_compute. repeat split; congruence. Qed.

(** C3. For every account, at every point of every sequence of calls on
    a new ledger, the session reset included, the balance is the points
    ever earned less the points ever spent, these being the totals of the
    earn amounts and of the spend amounts of the account's history; both
    totals are never negative and never go down, under one call or under
    any further sequence of calls.  The session counters the object stores
    beside them agree with the balance as long as no reset has been
    called, are lowered by no call but the reset, and are zeroed by the
    reset, which keeps the balance. *)
Theorem balance_is_earned_minus_spent (cs : list call) (cid : string) :
  let s := run cs NarrativePointsSystem_init in
  let log := returned (get_transaction_history cid None) in
  let earned := returned (get_session_earnings cid) in
  let spent := returned (get_session_spending cid) in
  returned (get_balance cid) s =
    total_of KEarn (log s) - total_of KSpend (log s) /\
  (forall c,
     total_of KEarn (log s) <= total_of KEarn (log (exec c s)) /\
     total_of KSpend (log s) <= total_of KSpend (log (exec c s))) /\
  (no_reset cs = true -> returned (get_balance cid) s = earned s - spent s) /\
  (forall c, is_reset c = false ->
     earned s <= earned (exec c s) /\ spent s <= spent (exec c s)) /\
  (earned (exec ResetSession s) = 0 /\ spent (exec ResetSession s) = 0 /\
   returned (get_balance cid) (exec ResetSession s) =
     returned (get_balance cid) s) /\
  (0 <= total_of KEarn (log s) /\ 0 <= total_of KSpend (log s)) /\
  (forall more,
     total_of KEarn (log s) <= total_of KEarn (log (run more s)) /\
     total_of KSpend (log s) <= total_of KSpend (log (run more s))).
Proof.
  intros s log earned spent. subst log earned spent.
  unfold returned. simpl fst.
  repeat split.
  - rewrite <- replay_totals.
    symmetry. apply (run_log_matches_balance cs cid).
  - apply totals_step.
  - apply totals_step.
  - intros Hcs. apply (no_reset_session_matches_balance cs Hcs cid).
  - by apply session_counters_step.
  - by apply session_counters_step.
  - apply (totals_run cs NarrativePointsSystem_init cid).
  - apply (totals_run cs NarrativePointsSystem_init cid).
  - apply totals_run.
  - apply totals_run.
Qed.

Lemma balance_is_earned_minus_spent_witness :
  no_reset [alice_earns; alice_foreshadows; alice_retcons] = true /\
  returned (get_balance "alice")
    (run [alice_earns; alice_foreshadows; alice_retcons]
       NarrativePointsSystem_init) =
  returned (get_session_earnings "alice")
    (run [alice_earns; alice_foreshadows; alice_retcons]
       NarrativePointsSystem_init) -
  returned (get_session_spending "alice")
    (run [alice_earns; alice_foreshadows; alice_retcons]
       NarrativePointsSystem_init).
Proof.
  split; [reflexivity|].
  exact (proj1 (proj2 (proj2
    (balance_is_earned_minus_spent
       [alice_earns; alice_foreshadows; alice_retcons] "alice")))
    eq_refl).
Defined.

(** ** Pressure *)

Section Pressure.
Implicit Types (s : NarrativePointsSystem) (cid : string).

Lemma calculate_narrative_pressure_eq cid s :
  calculate_narrative_pressure cid s =
  (pressure_of_balance (balance_of s cid), s).
Proof.
  unfold calculate_narrative_pressure, pressure_of_balance, bind.
  rewrite get_balance_eq, get_session_earnings_eq. unfold ret.
  repeat case_match; reflexivity.
Qed.

Lemma pressure_of_balance_range b :
  PrimFloat.leb 0%float (pressure_of_balance b) = true /\
  PrimFloat.leb (pressure_of_balance b) 1%float = true.
Proof. unfold pressure_of_balance. repeat case_match; split; reflexivity. Qed.

Lemma pressure_of_balance_antitone b1 b2 :
  b1 <= b2 ->
  PrimFloat.leb (pressure_of_balance b2) (pressure_of_balance b1) = true.
Proof.
  intros Hle. unfold pressure_of_balance.
  repeat case_match; try reflexivity; lia.
Qed.

End Pressure.

(** C7. The pressure of an account is read without changing the object, is
    a function of the account's balance alone, takes the value 0.7 below 2,
    0.4 from 2 below 5, 0.2 from 5 below 10 and 0.0 from 10 on, lies
    between 0 and 1, and does not rise with the balance: of two balances
    the lower one has the higher or equal pressure. *)
Theorem pressure_is_a_falling_step_function
    (s : NarrativePointsSystem) (cid : string) :
  let b := returned (get_balance cid) s in
  let p := returned (calculate_narrative_pressure cid) s in
  after (calculate_narrative_pressure cid) s = s /\
  p = pressure_of_balance b /\
  p = (if b <? 2 then 0.7%float else if b <? 5 then 0.4%float
       else if b <? 10 then 0.2%float else 0.0%float) /\
  PrimFloat.leb 0%float p = true /\ PrimFloat.leb p 1%float = true /\
  forall (s2 : NarrativePointsSystem) (cid2 : string),
    b <= returned (get_balance cid2) s2 ->
    PrimFloat.leb (returned (calculate_narrative_pressure cid2) s2) p = true.
Proof.
  intros b p. subst b p. unfold returned, after.
  rewrite calculate_narrative_pressure_eq, get_balance_eq. simpl.
  repeat split; try apply pressure_of_balance_range.
  intros s2 cid2 Hle.
  rewrite calculate_narrative_pressure_eq. simpl.
  by apply pressure_of_balance_antitone.
Qed.

Lemma pressure_is_a_falling_step_function_witness :
  returned (get_balance "alice")
    (run [alice_earns; alice_foreshadows] NarrativePointsSystem_init) <=
  returned (get_balance "alice") (run [alice_earns] NarrativePointsSystem_init)
  /\
  PrimFloat.leb
    (returned (calculate_narrative_pressure "alice")
       (run [alice_earns] NarrativePointsSystem_init))
    (returned (calculate_narrative_pressure "alice")
       (run [alice_earns; alice_foreshadows] NarrativePointsSystem_init))
  = true.
Proof.
  assert (H : returned (get_balance "alice")
                (run [alice_earns; alice_foreshadows]
                   NarrativePointsSystem_init) <=
              returned (get_balance "alice")
                (run [alice_earns] NarrativePointsSystem_init))
    by (vm_compute; discriminate).
  split; [exact H|].
  exact (proj2 (proj2 (proj2 (proj2 (proj2
    (pressure_is_a_falling_step_function
       (run [alice_earns; alice_foreshadows] NarrativePointsSystem_init)
       "alice")))))
    (run [alice_earns] NarrativePointsSystem_init) "alice" H).
Defined.

(** ** Earning *)

(** C5, as the code has it: on a new ledger, earning for RISK_TAKING
    returns 2, not 3, and leaves the balance of "alice" at 2, not 3. *)
Lemma fresh_risk_taking_earns_two :
  returned (earn_points alice_env (Trigger RISK_TAKING) "took a leap"
              (Some "alice"%string) None) NarrativePointsSystem_init = 2 /\
  returned (earn_points alice_env (Trigger RISK_TAKING) "took a leap"
              (Some "alice"%string) None) NarrativePointsSystem_init <> 3 /\
  returned (get_balance "alice")
    (after (earn_points alice_env (Trigger RISK_TAKING) "took a leap"
              (Some "alice"%string) None) NarrativePointsSystem_init) = 2 /\
  returned (get_balance "alice")
    (after (earn_points alice_env (Trigger RISK_TAKING) "took a leap"
              (Some "alice"%string) None) NarrativePointsSystem_init) <> 3.
Proof. vm_compute. repeat split; congruence. Qed.

(** C5, amended.  For an account with balance 0 the pressure is 0.7, and
    earning for RISK_TAKING credits the base rate alone: the call returns 2
    and the balance afterwards is 2.  The bonus is computed only by
    [apply_narrative_pressure_bonus], which [earn_points] does not call:
    asked about an amount of 2 while the default account's balance is below
    2, it answers 3. *)
Theorem fresh_account_earns_base_rate (env : Env) (descr : string)
    (cid : string) (ctx : option Dict) (s : NarrativePointsSystem) :
  cid <> ""%string ->
  returned (get_balance cid) s = 0 ->
  let earn := earn_points env (Trigger RISK_TAKING) descr (Some cid) ctx in
  returned (calculate_narrative_pressure cid) s = 0.7%float /\
  returned earn s = 2 /\
  returned (get_balance cid) (after earn s) = 2 /\
  (returned (get_balance "session_general") s < 2 ->
   returned (apply_narrative_pressure_bonus (Trigger RISK_TAKING) 2) s =
   Some 3).
Proof.
  intros Hcid Hb earn. subst earn. unfold returned, after in *.
  rewrite get_balance_eq in Hb. simpl in Hb.
  assert (Ht : truthy (Some cid) = Some cid).
  { simpl. destruct (String.eqb_spec cid ""); congruence. }
  rewrite calculate_narrative_pressure_eq.
  rewrite (earn_points_truthy _ _ _ _ _ _ _ Ht).
  simpl. rewrite Hb. repeat split.
  - unfold balance_of. simpl. by rewrite lookup_insert_eq.
  - fold (balance_of s "session_general"). intros Hsg.
    unfold apply_narrative_pressure_bonus, bind.
    rewrite calculate_narrative_pressure_eq. unfold pressure_of_balance.
    replace (balance_of s "session_general" <? 2) with true
      by (symmetry; apply Z.ltb_lt; exact Hsg).
    reflexivity.
Qed.

Lemma fresh_account_earns_base_rate_witness :
  returned (calculate_narrative_pressure "alice") NarrativePointsSystem_init
    = 0.7%float /\
  returned (earn_points alice_env (Trigger RISK_TAKING) "took a leap"
              (Some "alice"%string) None) NarrativePointsSystem_init = 2 /\
  returned (get_balance "alice")
    (after (earn_points alice_env (Trigger RISK_TAKING) "took a leap"
              (Some "alice"%string) None) NarrativePointsSystem_init) = 2 /\
  (returned (get_balance "session_general") NarrativePointsSystem_init < 2 ->
   returned (apply_narrative_pressure_bonus (Trigger RISK_TAKING) 2)
     NarrativePointsSystem_init = Some 3).
Proof.
  apply (fresh_account_earns_base_rate alice_env "took a leap" "alice" None
           NarrativePointsSystem_init).
  - discriminate.
  - reflexivity.
Defined.

(** ** Values outside the enumerations *)

(** C6, as the code has it: a trigger that is no member of the enumeration
    is credited the default amount 1, and an activity that is no member is
    charged the default cost 1; neither call is refused. *)
Lemma foreign_values_default_to_one :
  returned (earn_points alice_env (ForeignTrigger "'luck'") "found a coin"
              (Some "alice"%string) None) NarrativePointsSystem_init = 1 /\
  returned (get_balance "alice")
    (after (earn_points alice_env (ForeignTrigger "'luck'") "found a coin"
              (Some "alice"%string) None) NarrativePointsSystem_init) = 1 /\
  returned (spend_points alice_env (ForeignActivity "'bribe'") "paid a guard"
              (Some "alice"%string) None)
    (after (earn_points alice_env (ForeignTrigger "'luck'") "found a coin"
              (Some "alice"%string) None) NarrativePointsSystem_init) = true /\
  returned (get_balance "alice")
    (after (spend_points alice_env (ForeignActivity "'bribe'") "paid a guard"
              (Some "alice"%string) None)
       (after (earn_points alice_env (ForeignTrigger "'luck'") "found a coin"
                 (Some "alice"%string) None) NarrativePointsSystem_init)) = 0.
Proof. vm_compute. repeat split. Qed.

(** C6, amended.  For every trigger outside the enumeration [earn_points]
    returns 1 and, for a true account, credits 1 and records a transaction
    of amount 1 under that trigger (for a false account it changes
    nothing).  For every activity outside the enumeration [spend_points]
    charges 1: with a balance below 1 it returns false and the balance
    stays, otherwise it returns true, takes 1 and records a transaction of
    amount 1 under that activity. *)
Theorem foreign_values_cost_one (env : Env) (name descr : string)
    (account : option string) (ctx : option Dict)
    (s : NarrativePointsSystem) :
  let earn := earn_points env (ForeignTrigger name) descr account ctx in
  let spend := spend_points env (ForeignActivity name) descr account ctx in
  let acc := charged_account account in
  returned earn s = 1 /\
  match truthy account with
  | Some cid =>
      returned (get_balance cid) (after earn s) =
        returned (get_balance cid) s + 1 /\
      exists tx,
        returned (get_transaction_history cid None) (after earn s) =
          returned (get_transaction_history cid None) s ++ [tx] /\
        trigger tx = Some (ForeignTrigger name) /\ amount tx = 1
  | None => after earn s = s
  end /\
  if decide (returned (get_balance acc) s < 1) then
    returned spend s = false /\
    returned (get_balance acc) (after spend s) = returned (get_balance acc) s
  else
    returned spend s = true /\
    returned (get_balance acc) (after spend s) =
      returned (get_balance acc) s - 1 /\
    exists tx,
      returned (get_transaction_history acc None) (after spend s) =
        returned (get_transaction_history acc None) s ++ [tx] /\
      activity tx = Some (ForeignActivity name) /\ amount tx = 1.
Proof.
  intros earn spend acc. subst earn spend. unfold returned, after.
  rewrite !get_balance_eq, !get_transaction_history_None. simpl fst.
  split; [|split].
  - destruct (truthy account) as [cid|] eqn:Hacc.
    + by rewrite (earn_points_truthy _ _ _ _ _ _ _ Hacc).
    + by rewrite (earn_points_falsy _ _ _ _ _ _ Hacc).
  - destruct (truthy account) as [cid|] eqn:Hacc.
    + rewrite (earn_points_truthy _ _ _ _ _ _ _ Hacc). simpl.
      unfold balance_of, log_of. simpl.
      rewrite !lookup_insert_eq. simpl. split; [reflexivity|].
      eexists. repeat split.
    + by rewrite (earn_points_falsy _ _ _ _ _ _ Hacc).
  - case_decide as Hlt.
    + rewrite (spend_points_refused env (ForeignActivity name) descr account
                 ctx s Hlt).
      simpl. split; [reflexivity|]. apply default_insert_same.
    + rewrite (spend_points_afforded env (ForeignActivity name) descr
                 account ctx s) by (simpl; fold acc; lia).
      simpl. fold acc. unfold balance_of, log_of. simpl.
      rewrite !lookup_insert_eq. simpl. split; [reflexivity|].
      split; [reflexivity|]. eexists. repeat split.
Qed.

(** ** The session reset *)

(** C8. After [reset_session_data] every account's session-earned and
    session-spent counters read 0, while the balances and the transaction
    histories are the very same dictionaries as before, so that every
    balance and every history, whatever the limit, reads as before.  The
    scene counter, session data as well, is set to 0. *)
Theorem reset_session_data_frame (s : NarrativePointsSystem) (cid : string) :
  let s' := after reset_session_data s in
  returned (get_session_earnings cid) s' = 0 /\
  returned (get_session_spending cid) s' = 0 /\
  player_balances s' = player_balances s /\
  transaction_history s' = transaction_history s /\
  returned (get_balance cid) s' = returned (get_balance cid) s /\
  current_scene_points s' = 0 /\
  forall limit,
    returned (get_transaction_history cid limit) s' =
    returned (get_transaction_history cid limit) s.
Proof.
  intros s'. subst s'. unfold after. rewrite reset_session_data_eq.
  do 6 (split; [reflexivity|]).
  intros limit. unfold returned, get_transaction_history, dict_get, bind, ret.
  simpl. repeat case_match; reflexivity.
Qed.

(** ** Calls without an account *)

(** C9. Called with [None] for the account, [earn_points] returns the
    trigger's rate and leaves the object exactly as it was, whereas
    [spend_points] behaves as for the account "session_general": that key
    is present in the balances afterwards, and when the cost is afforded
    the call returns true, the balance of "session_general" drops by the
    cost, one transaction carrying that account is appended to its history
    and its session-spent counter rises by the cost. *)
Theorem calls_without_account (env : Env) (t : trigger_arg)
    (act : activity_arg) (descr : string) (ctx : option Dict)
    (s : NarrativePointsSystem) :
  let general := "session_general"%string in
  let cost := activity_costs_get act 1 in
  let spend := spend_points env act descr None ctx in
  earn_points env t descr None ctx s = (earning_rates_get t 1, s) /\
  (forall rate, t = Trigger rate ->
     returned (earn_points env t descr None ctx) s = earning_rates rate) /\
  spend s = spend_points env act descr (Some general) ctx s /\
  is_Some (player_balances (after spend s) !! general) /\
  if decide (returned (get_balance general) s < cost) then
    returned spend s = false
  else
    returned spend s = true /\
    after spend s <> s /\
    returned (get_balance general) (after spend s) =
      returned (get_balance general) s - cost /\
    (exists tx,
       returned (get_transaction_history general None) (after spend s) =
         returned (get_transaction_history general None) s ++ [tx] /\
       character_id tx = Some general /\ amount tx = cost) /\
    returned (get_session_spending general) (after spend s) =
      returned (get_session_spending general) s + cost.
Proof.
  intros general cost spend. subst spend.
  split; [reflexivity|]. split; [by intros rate ->|].
  split; [reflexivity|].
  unfold returned, after.
  rewrite !get_balance_eq, !get_transaction_history_None,
    !get_session_spending_eq. simpl fst.
  change general with (charged_account None).
  destruct (decide (balance_of s (charged_account None) < cost)) as [Hlt|Hge].
  - rewrite (spend_points_refused env act descr None ctx s Hlt). simpl.
    rewrite lookup_insert_eq. split; [by eexists | reflexivity].
  - rewrite (spend_points_afforded env act descr None ctx s)
      by (fold cost; lia).
    simpl. fold cost.
    split; [rewrite lookup_insert_eq; by eexists|]. split; [reflexivity|].
    split.
    + intros Heq.
      apply (f_equal (fun x => balance_of x (charged_account None))) in Heq.
      unfold balance_of in Heq. simpl in Heq.
      rewrite lookup_insert_eq in Heq. simpl in Heq.
      pose proof (activity_costs_get_pos act) as Hpos. fold cost in Hpos. lia.
    + unfold balance_of, log_of, spent_of. simpl.
      rewrite !lookup_insert_eq. simpl.
      split; [reflexivity|]. split; [|reflexivity].
      eexists. repeat split.
Qed.

(** ** Reading the history *)

Section History.
Implicit Types (s : NarrativePointsSystem) (cid : string)
  (l : list NPTransaction).

(** [l[-n:]] for a positive [n]: the last [n] elements. *)
Lemma slice_from_last l (n : positive) :
  slice_from (- Z.pos n) l = drop (length l - Pos.to_nat n) l.
Proof.
  unfold slice_from.
  replace (- Z.pos n <? 0) with true by reflexivity.
  rewrite <- (positive_nat_Z n). f_equal. lia.
Qed.

Lemma get_transaction_history_pos cid (n : positive) s :
  get_transaction_history cid (Some (Z.pos n)) s =
  (drop (length (log_of s cid) - Pos.to_nat n) (log_of s cid), s).
Proof.
  unfold get_transaction_history, bind, dict_get. simpl.
  unfold ret. by rewrite <- slice_from_last.
Qed.

(** Every call leaves an account's history as it was or longer by one
    record at the end. *)
Lemma log_grows_at_the_end c s cid :
  exists new,
    log_of (exec c s) cid = log_of s cid ++ new /\ (length new <= 1)%nat.
Proof.
  destruct (exec_effect c s)
    as [_ Hl _ _|acc tx _ _ _ Hl _ _|acc tx _ _ _ Hl _ _|_ Hl _ _];
    rewrite Hl; try case_decide;
    first [ exists []; split; [by rewrite app_nil_r | simpl; lia]
          | exists [tx]; split; [reflexivity | simpl; lia] ].
Qed.

End History.

(** C10. The history of an account is read in the order the transactions
    were appended, the most recent last: without a limit, or with limit 0,
    the whole stored list is returned; with a positive limit [n] the
    result is the stored list without its first [length - n] records, that
    is its last [n] records in their order, [min n length] of them, and the
    whole list when it has at most [n] records; and every call leaves the
    list as it was or appends one record at its end. *)
Theorem get_transaction_history_limit (s : NarrativePointsSystem)
    (cid : string) (n : positive) :
  let full := returned (get_transaction_history cid None) s in
  let last_n := returned (get_transaction_history cid (Some (Z.pos n))) s in
  full = default [] (transaction_history s !! cid) /\
  returned (get_transaction_history cid (Some 0)) s = full /\
  last_n = drop (length full - Pos.to_nat n) full /\
  (exists older, full = older ++ last_n) /\
  length last_n = Nat.min (Pos.to_nat n) (length full) /\
  ((length full <= Pos.to_nat n)%nat -> last_n = full) /\
  forall c, exists new,
    returned (get_transaction_history cid None) (exec c s) = full ++ new /\
    (length new <= 1)%nat.
Proof.
  intros full last_n. subst full last_n. unfold returned.
  rewrite get_transaction_history_pos. simpl fst.
  fold (log_of s cid).
  split; [reflexivity|]. split; [reflexivity|]. split; [reflexivity|].
  split; [|split; [|split]].
  - exists (take (length (log_of s cid) - Pos.to_nat n) (log_of s cid)).
    by rewrite take_drop.
  - rewrite length_drop. lia.
  - intros Hle.
    replace (length (log_of s cid) - Pos.to_nat n)%nat with 0%nat by lia.
    reflexivity.
  - intros c. apply log_grows_at_the_end.
Qed.

Lemma get_transaction_history_limit_witness :
  (length (returned (get_transaction_history "alice" None)
             (run [alice_earns; alice_foreshadows]
                NarrativePointsSystem_init)) <= Pos.to_nat 5)%nat /\
  returned (get_transaction_history "alice" (Some 5))
    (run [alice_earns; alice_foreshadows] NarrativePointsSystem_init) =
  returned (get_transaction_history "alice" None)
    (run [alice_earns; alice_foreshadows] NarrativePointsSystem_init).
Proof.
  assert (H : (length (returned (get_transaction_history "alice" None)
                         (run [alice_earns; alice_foreshadows]
                            NarrativePointsSystem_init)) <= Pos.to_nat 5)%nat)
    by (vm_compute; lia).
  split; [exact H|].
  exact (proj1 (proj2 (proj2 (proj2 (proj2 (proj2
    (get_transaction_history_limit
       (run [alice_earns; alice_foreshadows] NarrativePointsSystem_init)
       "alice" 5)))))) H).
Defined.

(** * Further properties of the ledger *)

(** ** Earning in full *)

Lemma earn_points_returns_rate (env : Env) (t : trigger_arg)
    (descr : string) (account : option string) (ctx : option Dict)
    (s : NarrativePointsSystem) :
  returned (earn_points env t descr account ctx) s = earning_rates_get t 1.
Proof.
  unfold returned. destruct (truthy account) as [cid|] eqn:Hacc.
  - by rewrite (earn_points_truthy _ _ _ _ _ _ _ Hacc).
  - by rewrite (earn_points_falsy _ _ _ _ _ _ Hacc).
Qed.

(** X1. [earn_points] never refuses and does not look at the balance: it
    returns the trigger's rate (1 for a trigger outside the table) in every
    state.  For a true account it raises that balance by the rate, appends
    one earn record (this trigger, this amount, the new balance as
    [balance_after], the account, the drawn id and time) and raises the
    session-earned counter by the rate; the spend counters and every other
    account stay as they were.  For a false account ([None] or the empty
    string) the object is left exactly as it was. *)
Theorem earn_points_in_full (env : Env) (t : trigger_arg) (descr : string)
    (account : option string) (ctx : option Dict)
    (s : NarrativePointsSystem) :
  let rate := earning_rates_get t 1 in
  let earn := earn_points env t descr account ctx in
  let s' := after earn s in
  returned earn s = rate /\ 1 <= rate /\
  match truthy account with
  | Some cid =>
      returned (get_balance cid) s' = returned (get_balance cid) s + rate /\
      returned (get_transaction_history cid None) s' =
        returned (get_transaction_history cid None) s ++
        [ {| id := uuid4 env; amount := rate;
             balance_after := returned (get_balance cid) s + rate;
             description := descr; timestamp := datetime_now env;
             trigger := Some t; activity := None;
             character_id := Some cid; scene_context := ctx |} ] /\
      returned (get_session_earnings cid) s' =
        returned (get_session_earnings cid) s + rate /\
      spending_this_session s' = spending_this_session s /\
      current_scene_points s' = current_scene_points s /\
      forall k, k <> cid ->
        returned (get_balance k) s' = returned (get_balance k) s /\
        returned (get_transaction_history k None) s' =
          returned (get_transaction_history k None) s /\
        returned (get_session_earnings k) s' =
          returned (get_session_earnings k) s
  | None => s' = s
  end.
Proof.
  intros rate earn s'. subst earn s'. unfold returned, after.
  destruct (truthy account) as [cid|] eqn:Hacc.
  - rewrite (earn_points_truthy _ _ _ _ _ _ _ Hacc). fold rate. simpl.
    unfold balance_of, log_of, earned_of. simpl.
    rewrite !lookup_insert_eq. simpl.
    split; [reflexivity|]. split; [apply earning_rates_get_pos|].
    do 5 (split; [reflexivity|]).
    intros k Hk. rewrite !lookup_insert_ne by congruence. by repeat split.
  - rewrite (earn_points_falsy _ _ _ _ _ _ Hacc). simpl.
    split; [reflexivity|]. split; [apply earning_rates_get_pos|reflexivity].
Qed.

(** ** What the records say *)

Section Records.
Implicit Types (s : NarrativePointsSystem) (k cid : string) (c : call)
  (log : list NPTransaction) (tx : NPTransaction).

Lemma truthy_nonempty account cid : truthy account = Some cid -> cid <> "".
Proof.
  destruct account as [a|]; simpl; [|discriminate].
  destruct (String.eqb_spec a ""); [discriminate|]. by intros [= <-].
Qed.

Lemma charged_account_nonempty account : charged_account account <> "".
Proof.
  unfold charged_account. destruct (truthy account) as [cid|] eqn:H.
  - by apply truthy_nonempty in H.
  - discriminate.
Qed.

(** One call on one account: no new record and the same balance, or one
    new record at the end, written as the methods write it. *)
Lemma exec_appends c s k :
  (log_of (exec c s) k = log_of s k /\
   balance_of (exec c s) k = balance_of s k) \/
  exists tx,
    log_of (exec c s) k = log_of s k ++ [tx] /\
    balance_of (exec c s) k = balance_of s k + signed_amount tx /\
    balance_after tx = balance_of (exec c s) k /\
    character_id tx = Some k /\ k <> "" /\
    written_account c = Some k /\
    1 <= amount tx /\ well_recorded tx.
Proof.
  destruct c as [env t d acc ctx|env a d acc ctx| | | | | | | ]; simpl;
    try (left; split; reflexivity).
  - unfold after. destruct (truthy acc) as [cid|] eqn:Hacc.
    + rewrite (earn_points_truthy _ _ _ _ _ _ _ Hacc). simpl.
      unfold balance_of, log_of. simpl.
      destruct (decide (k = cid)) as [->|Hne].
      * right. rewrite !lookup_insert_eq. simpl. eexists.
        split; [reflexivity|]. simpl.
        repeat split; eauto using truthy_nonempty, earning_rates_get_pos.
      * left. by rewrite !lookup_insert_ne.
    + rewrite (earn_points_falsy _ _ _ _ _ _ Hacc). by left.
  - unfold after.
    destruct (Z_le_gt_dec (activity_costs_get a 1)
                (balance_of s (charged_account acc))) as [Hle|Hgt].
    + rewrite (spend_points_afforded _ _ _ _ _ _ Hle). simpl.
      unfold balance_of, log_of. simpl.
      destruct (decide (k = charged_account acc)) as [->|Hne].
      * right. rewrite !lookup_insert_eq. simpl. eexists.
        split; [reflexivity|]. simpl.
        repeat split;
          eauto using charged_account_nonempty, activity_costs_get_pos.
      * left. by rewrite !lookup_insert_ne.
    + rewrite (spend_points_refused env a d acc ctx s) by lia. simpl.
      left. split; [reflexivity|]. apply default_insert_same.
  - by rewrite get_transaction_history_pure; left.
  - by rewrite calculate_narrative_pressure_pure; left.
  - by rewrite apply_narrative_pressure_bonus_pure; left.
Qed.

Lemma snapshots_from_snoc b log tx :
  snapshots_from b (log ++ [tx]) <->
  snapshots_from b log /\
  balance_after tx = b + replay log + signed_amount tx.
Proof.
  revert b. induction log as [|tx0 log IH]; intros b; simpl.
  - unfold replay. simpl. rewrite Z.add_0_r. tauto.
  - rewrite IH.
    replace (replay (tx0 :: log)) with (signed_amount tx0 + replay log).
    + rewrite !Z.add_assoc. tauto.
    + change (tx0 :: log) with ([tx0] ++ log).
      clear. induction log as [|tx1 log IH] using rev_ind.
      * unfold replay. simpl. lia.
      * rewrite app_assoc, !replay_snoc, <- IH. lia.
Qed.

(** The three facts about the records of one account that every call
    keeps. *)
Lemma records_step c s k :
  (replay (log_of s k) = balance_of s k /\
   0 <= balance_of s k /\
   snapshots_from 0 (log_of s k) /\
   Forall (fun tx => character_id tx = Some k /\ k <> "" /\
                     1 <= amount tx /\
                     0 <= balance_after tx /\ well_recorded tx)
     (log_of s k)) ->
  replay (log_of (exec c s) k) = balance_of (exec c s) k /\
  0 <= balance_of (exec c s) k /\
  snapshots_from 0 (log_of (exec c s) k) /\
  Forall (fun tx => character_id tx = Some k /\ k <> "" /\
                    1 <= amount tx /\
                    0 <= balance_after tx /\ well_recorded tx)
    (log_of (exec c s) k).
Proof.
  intros (Hrep & Hpos & Hsnap & Hall).
  assert (Hpos' : 0 <= balance_of (exec c s) k).
  { destruct (exec_effect c s)
      as [Hb _ _ _|cid tx _ Ha Hb _ _ _|cid tx _ Ha Hb _ _ _|Hb _ _ _];
      rewrite Hb; try assumption; case_decide; subst; lia. }
  destruct (exec_appends c s k)
    as [[Hl Hb]|(tx & Hl & Hb & Hafter & Hcid & Hk & _ & Ha & Hrec)].
  - rewrite Hl, Hb. auto.
  - rewrite Hl. repeat split.
    + rewrite replay_snoc, Hrep, Hb. reflexivity.
    + assumption.
    + apply snapshots_from_snoc. split; [assumption|].
      rewrite Hafter, Hb, Hrep. lia.
    + apply Forall_app. split; [assumption|].
      apply Forall_singleton. rewrite Hafter. auto.
Qed.

Lemma records_run cs k :
  let s := run cs NarrativePointsSystem_init in
  replay (log_of s k) = balance_of s k /\
  0 <= balance_of s k /\
  snapshots_from 0 (log_of s k) /\
  Forall (fun tx => character_id tx = Some k /\ k <> "" /\
                    1 <= amount tx /\
                    0 <= balance_after tx /\ well_recorded tx)
    (log_of s k).
Proof.
  apply (run_invariant (fun s =>
    replay (log_of s k) = balance_of s k /\
    0 <= balance_of s k /\
    snapshots_from 0 (log_of s k) /\
    Forall (fun tx => character_id tx = Some k /\ k <> "" /\
                      1 <= amount tx /\
                      0 <= balance_after tx /\ well_recorded tx)
      (log_of s k))).
  - intros c s. apply records_step.
  - unfold log_of, balance_of. simpl. rewrite !lookup_empty. simpl.
    repeat split; [lia | constructor].
Qed.

End Records.

(** X2. Along every sequence of calls on a new ledger, the [balance_after]
    of each record of an account is the running balance of the replay up
    to and including that record; so the last record of an account shows
    its current balance, and an account without records has balance 0. *)
Theorem balance_after_is_running_balance (cs : list call) (cid : string) :
  let s := run cs NarrativePointsSystem_init in
  let log := returned (get_transaction_history cid None) s in
  snapshots_from 0 log /\
  match last log with
  | Some tx => balance_after tx = returned (get_balance cid) s
  | None => returned (get_balance cid) s = 0
  end.
Proof.
  intros s log. subst log. unfold returned. simpl fst.
  fold (log_of s cid) (balance_of s cid).
  destruct (records_run cs cid) as (Hrep & _ & Hsnap & _).
  fold s in Hrep, Hsnap.
  split; [assumption|].
  destruct (log_of s cid) as [|tx0 l0] eqn:Hlog using rev_ind.
  - simpl. rewrite <- Hrep. reflexivity.
  - rewrite last_snoc. apply snapshots_from_snoc in Hsnap as [_ Hlast].
    rewrite Hlast, <- Hrep, replay_snoc. lia.
Qed.

(** X3. Along every sequence of calls on a new ledger, every record kept
    for an account names that account, which is not the empty string; it
    carries either a trigger and the amount the rate table gives that
    trigger, or an activity and the amount the cost table gives it, never
    both and never neither; its amount is at least 1 and its
    [balance_after] is not negative. *)
Theorem records_are_well_formed (cs : list call) (cid : string) :
  Forall
    (fun tx =>
       character_id tx = Some cid /\ cid <> ""%string /\
       1 <= amount tx /\ 0 <= balance_after tx /\
       match trigger tx, activity tx with
       | Some t, None => amount tx = earning_rates_get t 1
       | None, Some a => amount tx = activity_costs_get a 1
       | _, _ => False
       end)
    (returned (get_transaction_history cid None)
       (run cs NarrativePointsSystem_init)).
Proof.
  unfold returned. simpl fst.
  destruct (records_run cs cid) as (_ & _ & _ & Hall). exact Hall.
Qed.

(** X4. Records are never removed or rewritten: whatever the state and
    whatever calls follow, the history an account had is a prefix of the
    history it has afterwards. *)
Theorem history_is_append_only (cs : list call) (s : NarrativePointsSystem)
    (cid : string) :
  returned (get_transaction_history cid None) s `prefix_of`
  returned (get_transaction_history cid None) (run cs s).
Proof.
  unfold returned. simpl fst. fold (log_of s cid) (log_of (run cs s) cid).
  revert s. induction cs as [|c cs IH]; intros s; simpl.
  - reflexivity.
  - etrans; [|apply IH].
    destruct (log_grows_at_the_end c s cid) as (new & -> & _).
    by apply prefix_app_r.
Qed.

(** ** Accounts do not interfere *)

Section Isolation.
Implicit Types (s : NarrativePointsSystem) (k cid : string) (c : call).

Lemma exec_no_write c s :
  written_account c = None -> is_reset c = false -> exec c s = s.
Proof.
  destruct c as [env t d acc ctx|env a d acc ctx| | | | | | | ]; simpl;
    try discriminate; intros Hw _;
    auto using get_transaction_history_pure,
      calculate_narrative_pressure_pure, apply_narrative_pressure_bonus_pure.
  unfold after. by rewrite (earn_points_falsy _ _ _ _ _ _ Hw).
Qed.

(** A writing call leaves every other key, and the scene counter, alone. *)
Lemma exec_other_keys c s cid k :
  written_account c = Some cid -> k <> cid ->
  entries (exec c s) k = entries s k /\
  current_scene_points (exec c s) = current_scene_points s.
Proof.
  unfold entries.
  destruct c as [env t d acc ctx|env a d acc ctx| | | | | | | ]; simpl;
    try discriminate; intros Hw Hk; unfold after.
  - rewrite (earn_points_truthy _ _ _ _ _ _ _ Hw). simpl.
    by rewrite !lookup_insert_ne.
  - injection Hw as <-.
    destruct (Z_le_gt_dec (activity_costs_get a 1)
                (balance_of s (charged_account acc))) as [Hle|Hgt].
    + rewrite (spend_points_afforded _ _ _ _ _ _ Hle). simpl.
      by rewrite !lookup_insert_ne.
    + rewrite (spend_points_refused env a d acc ctx s) by lia. simpl.
      by rewrite !lookup_insert_ne.
Qed.

(** What a writing call leaves under its own key is decided by what was
    under that key. *)
Lemma exec_own_key c s1 s2 cid :
  written_account c = Some cid ->
  entries s1 cid = entries s2 cid ->
  entries (exec c s1) cid = entries (exec c s2) cid.
Proof.
  unfold entries. intros Hw [= Hb Hl He Hp].
  assert (Hbal : balance_of s1 cid = balance_of s2 cid)
    by (unfold balance_of; by rewrite Hb).
  assert (Hlog : log_of s1 cid = log_of s2 cid)
    by (unfold log_of; by rewrite Hl).
  assert (Hear : earned_of s1 cid = earned_of s2 cid)
    by (unfold earned_of; by rewrite He).
  assert (Hspe : spent_of s1 cid = spent_of s2 cid)
    by (unfold spent_of; by rewrite Hp).
  destruct c as [env t d acc ctx|env a d acc ctx| | | | | | | ]; simpl in *;
    try discriminate; unfold after.
  - rewrite !(earn_points_truthy _ _ _ _ _ _ _ Hw). simpl.
    rewrite !lookup_insert_eq, Hbal, Hlog, Hear, Hp. reflexivity.
  - injection Hw as <-.
    destruct (Z_le_gt_dec (activity_costs_get a 1)
                (balance_of s1 (charged_account acc))) as [Hle|Hgt].
    + rewrite (spend_points_afforded _ _ _ _ _ s1 Hle).
      rewrite (spend_points_afforded env a d acc ctx s2) by lia. simpl.
      rewrite !lookup_insert_eq, Hbal, Hlog, Hspe, He. reflexivity.
    + rewrite (spend_points_refused env a d acc ctx s1) by lia.
      rewrite (spend_points_refused env a d acc ctx s2) by lia. simpl.
      rewrite !lookup_insert_eq, Hbal, Hl, He, Hp. reflexivity.
Qed.

Lemma system_eq s1 s2 :
  (forall k, entries s1 k = entries s2 k) ->
  current_scene_points s1 = current_scene_points s2 ->
  s1 = s2.
Proof.
  destruct s1 as [b1 h1 e1 p1 n1], s2 as [b2 h2 e2 p2 n2].
  unfold entries. simpl. intros Hk ->.
  f_equal; apply map_eq; intros k; specialize (Hk k); congruence.
Qed.

Lemma written_account_nonempty c cid :
  written_account c = Some cid -> cid <> "".
Proof.
  destruct c; simpl; try discriminate.
  - apply truthy_nonempty.
  - intros [= <-]. apply charged_account_nonempty.
Qed.

Lemma exec_commute c1 c2 s k1 k2 :
  written_account c1 = Some k1 -> written_account c2 = Some k2 ->
  k1 <> k2 ->
  exec c2 (exec c1 s) = exec c1 (exec c2 s).
Proof.
  intros H1 H2 Hne. apply system_eq.
  - intros k.
    destruct (decide (k = k1)) as [->|Hk1];
      [|destruct (decide (k = k2)) as [->|Hk2]].
    + rewrite (proj1 (exec_other_keys c2 (exec c1 s) k2 k1 H2 Hne)).
      apply (exec_own_key c1 s (exec c2 s) k1 H1).
      symmetry. apply (exec_other_keys c2 s k2 k1 H2 Hne).
    + rewrite (proj1 (exec_other_keys c1 (exec c2 s) k1 k2 H1 Hk1)).
      apply (exec_own_key c2 (exec c1 s) s k2 H2).
      apply (exec_other_keys c1 s k1 k2 H1 Hk1).
    + rewrite (proj1 (exec_other_keys c2 (exec c1 s) k2 k H2 Hk2)).
      rewrite (proj1 (exec_other_keys c1 s k1 k H1 Hk1)).
      rewrite (proj1 (exec_other_keys c1 (exec c2 s) k1 k H1 Hk1)).
      by rewrite (proj1 (exec_other_keys c2 s k2 k H2 Hk2)).
  - rewrite (proj2 (exec_other_keys c2 (exec c1 s) k2 k1 H2 Hne)).
    rewrite (proj2 (exec_other_keys c1 s k1 k2 H1 (not_eq_sym Hne))).
    rewrite (proj2 (exec_other_keys c1 (exec c2 s) k1 k2 H1 (not_eq_sym Hne))).
    by rewrite (proj2 (exec_other_keys c2 s k2 k1 H2 Hne)).
Qed.

End Isolation.

(** X5. Earning and spending on different accounts do not interfere: two
    calls, neither of them the session reset, that do not write to the same
    account leave the very same object in either order.  (A call writes to
    the account it credits or charges; reads and an earn without an
    account write to none.) *)
Theorem calls_on_different_accounts_commute (c1 c2 : call)
    (s : NarrativePointsSystem) :
  is_reset c1 = false -> is_reset c2 = false ->
  (forall k, written_account c1 = Some k -> written_account c2 <> Some k) ->
  exec c2 (exec c1 s) = exec c1 (exec c2 s).
Proof.
  intros Hr1 Hr2 Hdiff.
  destruct (written_account c1) as [k1|] eqn:H1.
  - destruct (written_account c2) as [k2|] eqn:H2.
    + apply (exec_commute c1 c2 s k1 k2 H1 H2).
      intros ->. by apply (Hdiff k2).
    + by rewrite !(exec_no_write c2).
  - by rewrite !(exec_no_write c1).
Qed.

Lemma calls_on_different_accounts_commute_witness :
  exec (Spend alice_env (Activity DRAMATIC_REVEAL) "the twist" None None)
    (exec alice_earns
       (run [Earn alice_env (Trigger SACRIFICIAL_CHOICE) "stayed behind"
               None None;
             Earn alice_env (Trigger SACRIFICIAL_CHOICE) "stayed behind"
               (Some "session_general"%string) None]
          NarrativePointsSystem_init)) =
  exec alice_earns
    (exec (Spend alice_env (Activity DRAMATIC_REVEAL) "the twist" None None)
       (run [Earn alice_env (Trigger SACRIFICIAL_CHOICE) "stayed behind"
               None None;
             Earn alice_env (Trigger SACRIFICIAL_CHOICE) "stayed behind"
               (Some "session_general"%string) None]
          NarrativePointsSystem_init)).
Proof.
  apply (calls_on_different_accounts_commute alice_earns
           (Spend alice_env (Activity DRAMATIC_REVEAL) "the twist" None None)).
  - reflexivity.
  - reflexivity.
  - intros k [= <-]. discriminate.
Defined.

(** X6. The empty string is no account: [earn_points] and [spend_points]
    treat it as they treat [None], and along every sequence of calls on a
    new ledger none of the four dictionaries ever holds an entry for it. *)
Theorem empty_string_is_no_account (cs : list call) :
  entries (run cs NarrativePointsSystem_init) "" = (None, None, None, None)
  /\
  forall env t a descr ctx s,
    earn_points env t descr (Some ""%string) ctx s =
      earn_points env t descr None ctx s /\
    spend_points env a descr (Some ""%string) ctx s =
      spend_points env a descr None ctx s.
Proof.
  split; [|by intros].
  apply (run_invariant (fun s => entries s "" = (None, None, None, None)));
    [|reflexivity].
  intros c s Hs.
  destruct (is_reset c) eqn:Hr.
  - destruct c; try discriminate. simpl. unfold after.
    rewrite reset_session_data_eq. unfold entries in *. simpl.
    injection Hs as -> -> _ _. by rewrite !lookup_empty.
  - destruct (written_account c) as [cid|] eqn:Hw.
    + rewrite <- Hs. apply (exec_other_keys c s cid "" Hw).
      apply not_eq_sym. by apply (written_account_nonempty c).
    + by rewrite exec_no_write.
Qed.

(** ** The session counters and the log *)

(** X7. Between resets the session counters count what the log gained:
    from any state, over any calls without a reset, an account's
    session-earned counter grows by the total of the earn amounts appended
    to its history, and its session-spent counter by the total of the
    spend amounts; started right after a reset, the counters are those
    totals. *)
Theorem session_counters_follow_the_log (cs : list call)
    (s : NarrativePointsSystem) (cid : string) :
  no_reset cs = true ->
  let log := returned (get_transaction_history cid None) in
  let earned := returned (get_session_earnings cid) in
  let spent := returned (get_session_spending cid) in
  earned (run cs s) - earned s =
    total_of KEarn (log (run cs s)) - total_of KEarn (log s) /\
  spent (run cs s) - spent s =
    total_of KSpend (log (run cs s)) - total_of KSpend (log s) /\
  earned (run cs (exec ResetSession s)) =
    total_of KEarn (log (run cs (exec ResetSession s))) -
    total_of KEarn (log s) /\
  spent (run cs (exec ResetSession s)) =
    total_of KSpend (log (run cs (exec ResetSession s))) -
    total_of KSpend (log s).
Proof.
  intros Hcs log earned spent. subst log earned spent.
  unfold returned. simpl fst.
  assert (Hfrom : forall s0,
    earned_of (run cs s0) cid - earned_of s0 cid =
      total_of KEarn (log_of (run cs s0) cid) - total_of KEarn (log_of s0 cid)
    /\
    spent_of (run cs s0) cid - spent_of s0 cid =
      total_of KSpend (log_of (run cs s0) cid) -
      total_of KSpend (log_of s0 cid)).
  { intros s0.
    apply (run_invariant_where (fun c => negb (is_reset c)) (fun s' =>
      earned_of s' cid - earned_of s0 cid =
        total_of KEarn (log_of s' cid) - total_of KEarn (log_of s0 cid) /\
      spent_of s' cid - spent_of s0 cid =
        total_of KSpend (log_of s' cid) - total_of KSpend (log_of s0 cid)));
      [|exact Hcs|split; lia].
    intros c s' Hc [He Hp]. apply negb_true_iff in Hc.
    destruct (exec_effect c s')
      as [_ Hl He' Hp'|acc tx Hk _ _ Hl He' Hp'
         |acc tx Hk _ _ Hl He' Hp'|];
      try discriminate; rewrite Hl, He', Hp'; try (split; assumption);
      case_decide; try (split; assumption);
      rewrite !total_of_snoc, Hk; lia. }
  fold (earned_of (run cs s) cid) (spent_of (run cs s) cid)
       (earned_of s cid) (spent_of s cid)
       (log_of (run cs s) cid) (log_of s cid).
  destruct (Hfrom s) as [He Hp].
  destruct (Hfrom (exec ResetSession s)) as [He0 Hp0].
  split; [exact He|]. split; [exact Hp|].
  change (earned_of (exec ResetSession s) cid) with 0 in He0.
  change (spent_of (exec ResetSession s) cid) with 0 in Hp0.
  change (log_of (exec ResetSession s) cid) with (log_of s cid) in He0, Hp0.
  change (after reset_session_data s) with (exec ResetSession s).
  unfold earned_of, spent_of, log_of in *. split; lia.
Qed.

Lemma session_counters_follow_the_log_witness :
  returned (get_session_earnings "alice")
    (run [alice_earns; alice_foreshadows]
       (exec ResetSession (run [alice_earns] NarrativePointsSystem_init))) =
  total_of KEarn
    (returned (get_transaction_history "alice" None)
       (run [alice_earns; alice_foreshadows]
          (exec ResetSession (run [alice_earns] NarrativePointsSystem_init))))
  - total_of KEarn
      (returned (get_transaction_history "alice" None)
         (run [alice_earns] NarrativePointsSystem_init)).
Proof.
  exact (proj1 (proj2 (proj2
    (session_counters_follow_the_log [alice_earns; alice_foreshadows]
       (run [alice_earns] NarrativePointsSystem_init) "alice" eq_refl)))).
Defined.

(** ** Limits below zero *)

(** X8. A negative limit does not count from the end: it is truthy and
    negated into a slice start, so [get_transaction_history] with limit
    [-n] returns the history without its [n] oldest records (nothing when
    there are at most [n]), not the last [n]. *)
Theorem negative_limit_drops_the_oldest (s : NarrativePointsSystem)
    (cid : string) (n : positive) :
  let full := returned (get_transaction_history cid None) s in
  let got := returned (get_transaction_history cid (Some (Z.neg n))) s in
  got = drop (Pos.to_nat n) full /\
  length got = (length full - Pos.to_nat n)%nat /\
  (exists oldest, full = oldest ++ got /\
     length oldest = Nat.min (Pos.to_nat n) (length full)) /\
  after (get_transaction_history cid (Some (Z.neg n))) s = s.
Proof.
  intros full got. subst full got.
  rewrite get_transaction_history_pure.
  cbv [returned get_transaction_history bind dict_get ret history attr_get
       fst].
  change (Z.neg n =? 0) with false. cbv iota.
  change (- Z.neg n) with (Z.pos n).
  fold (log_of s cid).
  assert (Hs : slice_from (Z.pos n) (log_of s cid) =
               drop (Pos.to_nat n) (log_of s cid)).
  { unfold slice_from. replace (Z.pos n <? 0) with false by reflexivity.
    destruct (decide (Pos.to_nat n <= length (log_of s cid))%nat) as [Hle|Hgt].
    - f_equal. lia.
    - rewrite !drop_ge by lia. reflexivity. }
  rewrite Hs. split; [reflexivity|]. split; [apply length_drop|].
  split; [|reflexivity].
  exists (take (Pos.to_nat n) (log_of s cid)).
  split; [by rewrite take_drop | by rewrite length_take].
Qed.

(** ** The pressure bonus *)

Section Bonus.



End Bonus.



(** ** Opportunities and suggestions *)

(** X10. [get_active_opportunities] always offers the same four
    opportunities, with four different triggers, and changes nothing; the
    reward each one announces is exactly what [earn_points] returns, in
    any state and for any account, when called with its trigger. *)
Theorem opportunities_pay_what_they_announce (s : NarrativePointsSystem) :
  let offers := returned get_active_opportunities s in
  after get_active_opportunities s = s /\
  offers = returned get_active_opportunities NarrativePointsSystem_init /\
  map Opportunity.trigger offers =
    [CHARACTER_GROWTH; CREATIVE_PROBLEM_SOLVING; RISK_TAKING;
     SACRIFICIAL_CHOICE] /\
  Forall
    (fun o =>
       forall env descr account ctx s',
         returned
           (earn_points env (Trigger (Opportunity.trigger o)) descr account
              ctx) s' =
         Opportunity.potential_reward o)
    offers.
Proof.
  intros offers. subst offers.
  do 3 (split; [reflexivity|]).
  unfold returned. simpl fst.
  repeat (apply List.Forall_cons;
          [intros env descr account ctx s'; cbn [Opportunity.trigger];
           exact (earn_points_returns_rate env (Trigger _) descr account
                    ctx s')|]).
  apply List.Forall_nil.
Qed.

Lemma generate_narrative_suggestions_eq (cid : string)
    (context : option Dict) (s : NarrativePointsSystem) :
  generate_narrative_suggestions cid context s =
  ((if balance_of s cid <? 3 then
      [ "Consider taking a risk or showing emotional investment";
        "Look for ways to advance the story meaningfully";
        "Develop character relationships or show personal growth";
        "Use creative problem-solving with environmental elements";
        "Time high-drama moments for maximum narrative impact" ]
    else
      [ "Develop character relationships or show personal growth";
        "Use creative problem-solving with environmental elements";
        "Time high-drama moments for maximum narrative impact" ]),
   s).
Proof.
  cbv [generate_narrative_suggestions bind get_active_opportunities
       attr_read ret get_balance dict_get balances attr_get].
  fold (balance_of s cid). by destruct (balance_of s cid <? 3).
Qed.

(** X11. [generate_narrative_suggestions] changes nothing, ignores its
    [context], and returns five suggestions when the account's balance is
    below 3 (an unknown account counts as 0) and otherwise three; the
    three standing suggestions always close the list, so the cut at five
    never drops one, and a higher balance never brings more suggestions. *)
Theorem suggestions_follow_the_balance (s : NarrativePointsSystem)
    (cid : string) (context : option Dict) :
  let got := returned (generate_narrative_suggestions cid context) s in
  after (generate_narrative_suggestions cid context) s = s /\
  (forall context',
     returned (generate_narrative_suggestions cid context') s = got) /\
  length got = (if returned (get_balance cid) s <? 3 then 5%nat else 3%nat)
  /\
  drop (length got - 3) got =
    [ "Develop character relationships or show personal growth";
      "Use creative problem-solving with environmental elements";
      "Time high-drama moments for maximum narrative impact" ]%string /\
  (player_balances s !! cid = None -> length got = 5%nat) /\
  forall s2 cid2,
    returned (get_balance cid) s <= returned (get_balance cid2) s2 ->
    (length (returned (generate_narrative_suggestions cid2 context) s2)
     <= length got)%nat.
Proof.
  intros got. subst got. unfold returned, after.
  rewrite !generate_narrative_suggestions_eq, !get_balance_eq.
  cbn [fst snd].
  split; [reflexivity|].
  split; [intros context'; by rewrite generate_narrative_suggestions_eq|].
  split; [by destruct (balance_of s cid <? 3)|].
  split; [by destruct (balance_of s cid <? 3)|].
  split.
  - intros Hnone. unfold balance_of. by rewrite Hnone.
  - intros s2 cid2.
    rewrite generate_narrative_suggestions_eq, get_balance_eq. cbn [fst].
    intros Hle.
    destruct (Z.ltb_spec (balance_of s cid) 3),
      (Z.ltb_spec (balance_of s2 cid2) 3); simpl; lia.
Qed.

Lemma suggestions_follow_the_balance_witness :
  (length (returned (generate_narrative_suggestions "alice" None)
             (run [alice_earns; alice_earns] NarrativePointsSystem_init))
   <= length (returned (generate_narrative_suggestions "bob" None)
                (run [alice_earns; alice_earns]
                   NarrativePointsSystem_init)))%nat.
Proof.
  exact (proj2 (proj2 (proj2 (proj2 (proj2
    (suggestions_follow_the_balance
       (run [alice_earns; alice_earns] NarrativePointsSystem_init)
       "bob" None)))))
    (run [alice_earns; alice_earns] NarrativePointsSystem_init) "alice"
    ltac:(vm_compute; discriminate)).
Defined.

(** ** The status report *)

Section Sums.
Implicit Types (d : gmap string Z) (s : NarrativePointsSystem).

Lemma dict_sum_empty : dict_sum ∅ = 0.
Proof. unfold dict_sum. by rewrite map_fold_empty. Qed.

Lemma dict_sum_insert_new d k v :
  d !! k = None -> dict_sum (<[k := v]> d) = dict_sum d + v.
Proof.
  intros Hk. unfold dict_sum.
  rewrite map_fold_insert_L; [reflexivity| |exact Hk].
  intros. lia.
Qed.

(** Storing under a key changes the sum by the change of that entry. *)
Lemma dict_sum_insert d k v :
  dict_sum (<[k := v]> d) = dict_sum d - default 0 (d !! k) + v.
Proof.
  destruct (d !! k) as [x|] eqn:Hk; simpl.
  - rewrite <- insert_delete_eq.
    rewrite dict_sum_insert_new by apply lookup_delete_eq.
    rewrite <- (insert_id d k x Hk) at 2.
    rewrite <- insert_delete_eq.
    rewrite (dict_sum_insert_new (delete k d) k x) by apply lookup_delete_eq.
    lia.
  - rewrite dict_sum_insert_new by exact Hk. lia.
Qed.

Lemma dict_sum_nonneg d :
  (forall k v, d !! k = Some v -> 0 <= v) -> 0 <= dict_sum d.
Proof.
  unfold dict_sum.
  apply (map_fold_weak_ind
    (fun r d => (forall k v, d !! k = Some v -> 0 <= v) -> 0 <= r)).
  - intros _. lia.
  - intros k v m r Hk IH Hall.
    assert (0 <= v) by (apply (Hall k); by rewrite lookup_insert_eq).
    assert (0 <= r).
    { apply IH. intros j w Hj. apply (Hall j).
      rewrite lookup_insert_ne; [exact Hj|]. intros ->. congruence. }
    lia.
Qed.

(** Every call but the reset keeps the points held equal to the points
    earned less the points spent, summed over the accounts. *)
Lemma supply_step c s :
  is_reset c = false ->
  dict_sum (player_balances s) =
    dict_sum (earnings_this_session s) - dict_sum (spending_this_session s) ->
  dict_sum (player_balances (exec c s)) =
    dict_sum (earnings_this_session (exec c s)) -
    dict_sum (spending_this_session (exec c s)).
Proof.
  intros Hc Hs.
  destruct c as [env t d acc ctx|env a d acc ctx| | | | | | | ]; simpl;
    try discriminate; try assumption;
    rewrite ?get_transaction_history_pure,
      ?calculate_narrative_pressure_pure,
      ?apply_narrative_pressure_bonus_pure; try assumption; unfold after.
  - destruct (truthy acc) as [cid|] eqn:Hacc.
    + rewrite (earn_points_truthy _ _ _ _ _ _ _ Hacc). simpl.
      rewrite !dict_sum_insert. unfold balance_of, earned_of. lia.
    + by rewrite (earn_points_falsy _ _ _ _ _ _ Hacc).
  - destruct (Z_le_gt_dec (activity_costs_get a 1)
                (balance_of s (charged_account acc))) as [Hle|Hgt].
    + rewrite (spend_points_afforded _ _ _ _ _ _ Hle). simpl.
      rewrite !dict_sum_insert. unfold balance_of, spent_of. lia.
    + rewrite (spend_points_refused env a d acc ctx s) by lia. simpl.
      rewrite !dict_sum_insert. unfold balance_of. lia.
Qed.

End Sums.

(** X12. [get_system_status] changes nothing and fails only when its
    division does.  Along every sequence of calls on a new ledger its
    report gives, as points held, the sum of the stored balances, as
    earnings and spendings the sums of the session counters, four active
    opportunities and the pressure level of the account "session_general".
    The sum of the balances is never negative, and as long as no reset was
    called it is the sum of the earnings less the sum of the spendings.
    Right after a reset the report is always given, with earnings,
    spendings and the average at zero and the points held as before. *)
Theorem system_status_totals (cs : list call) :
  let s := run cs NarrativePointsSystem_init in
  let held := dict_sum (player_balances s) in
  let earned := dict_sum (earnings_this_session s) in
  let spent := dict_sum (spending_this_session s) in
  after get_system_status s = s /\
  match returned get_system_status s with
  | Some st =>
      Status.narrative_points_system st = true /\
      Status.total_points_held st = held /\
      Status.earnings_this_session st = earned /\
      Status.spending_this_session st = spent /\
      Status.active_opportunities st = 4 /\
      Status.pressure_level st =
        returned (calculate_narrative_pressure "session_general") s
  | None =>
      int_truediv earned
        (Z.max 1 (Z.of_nat (size (earnings_this_session s)))) = None
  end /\
  0 <= held /\
  (no_reset cs = true -> held = earned - spent) /\
  returned get_system_status (exec ResetSession s) =
    Some {| Status.narrative_points_system := true;
            Status.total_points_held := held;
            Status.earnings_this_session := 0;
            Status.spending_this_session := 0;
            Status.average_earning_per_session := 0%float;
            Status.active_opportunities := 4;
            Status.pressure_level :=
              returned (calculate_narrative_pressure "session_general") s |}.
Proof.
  intros s held earned spent. subst held earned spent.
  unfold returned, after, get_system_status, bind, attr_read.
  cbn [attr_get earnings spending balances].
  split; [|split; [|split; [|split]]].
  - destruct (int_truediv _ _); [|reflexivity].
    unfold get_active_opportunities, bind, attr_read, ret.
    by rewrite calculate_narrative_pressure_eq.
  - destruct (int_truediv _ _) eqn:Hdiv; [|reflexivity].
    unfold get_active_opportunities, bind, attr_read, ret.
    rewrite !calculate_narrative_pressure_eq. repeat split.
  - apply dict_sum_nonneg. intros k v Hk.
    pose proof (run_invariant balances_nonnegative balances_nonnegative_step
                  cs _ init_balances_nonnegative k) as Hb.
    fold s in Hb. unfold balance_of in Hb. by rewrite Hk in Hb.
  - intros Hcs.
    apply (run_invariant_where (fun c => negb (is_reset c)) (fun s =>
      dict_sum (player_balances s) =
      dict_sum (earnings_this_session s) -
      dict_sum (spending_this_session s))); [|exact Hcs|reflexivity].
    intros c s0 Hc. apply supply_step. by apply negb_true_iff.
  - cbn [exec]. unfold after. rewrite reset_session_data_eq.
    cbn [snd earnings_this_session spending_this_session player_balances].
    rewrite dict_sum_empty, map_size_empty.
    change (int_truediv 0 (Z.max 1 (Z.of_nat 0))) with (Some 0%float).
    unfold get_active_opportunities, bind, attr_read, ret.
    rewrite !calculate_narrative_pressure_eq. reflexivity.
Qed.

Lemma system_status_totals_witness :
  dict_sum (player_balances
              (run [alice_earns; alice_foreshadows; alice_earns]
                 NarrativePointsSystem_init)) =
  dict_sum (earnings_this_session
              (run [alice_earns; alice_foreshadows; alice_earns]
                 NarrativePointsSystem_init)) -
  dict_sum (spending_this_session
              (run [alice_earns; alice_foreshadows; alice_earns]
                 NarrativePointsSystem_init)).
Proof.
  exact (proj1 (proj2 (proj2 (proj2
    (system_status_totals [alice_earns; alice_foreshadows; alice_earns]))))
    eq_refl).
Defined.

(** ** Entries that read as nothing *)

Section SameLedger.
Implicit Types (s : NarrativePointsSystem) (d : gmap string Z).

Lemma dict_sum_delete d k :
  dict_sum d = dict_sum (delete k d) + default 0 (d !! k).
Proof.
  destruct (d !! k) as [x|] eqn:Hk; simpl.
  - rewrite <- (insert_id d k x Hk) at 1. rewrite <- insert_delete_eq.
    apply dict_sum_insert_new, lookup_delete_eq.
  - rewrite delete_id by exact Hk. lia.
Qed.

Lemma dict_sum_zeros d :
  (forall k, default 0 (d !! k) = 0) -> dict_sum d = 0.
Proof.
  unfold dict_sum.
  apply (map_fold_weak_ind
    (fun r d => (forall k, default 0 (d !! k) = 0) -> r = 0)).
  - reflexivity.
  - intros k v m r Hk IH Hall.
    pose proof (Hall k) as Hv. rewrite lookup_insert_eq in Hv. simpl in Hv.
    rewrite IH; [lia|]. intros j. specialize (Hall j).
    destruct (decide (j = k)) as [->|Hne]; [by rewrite Hk|].
    by rewrite lookup_insert_ne in Hall.
Qed.

(** The sum of a dictionary is decided by what its keys read as. *)
Lemma dict_sum_by_reading d1 d2 :
  (forall k, default 0 (d1 !! k) = default 0 (d2 !! k)) ->
  dict_sum d1 = dict_sum d2.
Proof.
  revert d2. induction d1 as [|k v d1 Hk _ IH] using map_first_key_ind;
    intros d2 Hsame.
  - rewrite dict_sum_empty. symmetry. apply dict_sum_zeros.
    intros k. rewrite <- Hsame. by rewrite lookup_empty.
  - rewrite dict_sum_insert_new by exact Hk.
    rewrite (dict_sum_delete d2 k), <- (Hsame k), lookup_insert_eq. simpl.
    rewrite (IH (delete k d2)); [reflexivity|].
    intros j. destruct (decide (j = k)) as [->|Hne].
    + by rewrite Hk, lookup_delete_eq.
    + rewrite lookup_delete_ne by congruence.
      rewrite <- Hsame. by rewrite lookup_insert_ne.
Qed.

Lemma same_ledger_exec c s1 s2 :
  same_ledger s1 s2 -> same_ledger (exec c s1) (exec c s2).
Proof.
  intros (Hb & Hh & He & Hp & Hn).
  assert (Hl : forall k, log_of s1 k = log_of s2 k)
    by (intros k; unfold log_of; by rewrite Hh).
  assert (Hea : forall k, earned_of s1 k = earned_of s2 k)
    by (intros k; unfold earned_of; by rewrite He).
  assert (Hsp : forall k, spent_of s1 k = spent_of s2 k)
    by (intros k; unfold spent_of; by rewrite Hp).
  destruct c as [env t d acc ctx|env a d acc ctx| | | | | | | ]; simpl;
    rewrite ?get_transaction_history_pure,
      ?calculate_narrative_pressure_pure,
      ?apply_narrative_pressure_bonus_pure;
    try (by repeat split); unfold after.
  - destruct (truthy acc) as [cid|] eqn:Hacc.
    + rewrite !(earn_points_truthy _ _ _ _ _ _ _ Hacc).
      rewrite (Hl cid), (Hea cid), (Hb cid).
      unfold same_ledger. simpl. rewrite Hh, He, Hp, Hn.
      repeat split. intros k. unfold balance_of. simpl.
      rewrite !default_insert. case_decide; [reflexivity|apply Hb].
    + rewrite !(earn_points_falsy _ _ _ _ _ _ Hacc). by repeat split.
  - destruct (Z_le_gt_dec (activity_costs_get a 1)
                (balance_of s1 (charged_account acc))) as [Hle|Hgt].
    + rewrite (spend_points_afforded _ _ _ _ _ s1 Hle).
      rewrite (spend_points_afforded env a d acc ctx s2)
        by (rewrite <- Hb; exact Hle).
      simpl. rewrite (Hl (charged_account acc)),
        (Hsp (charged_account acc)), (Hb (charged_account acc)).
      unfold same_ledger. simpl. rewrite Hh, He, Hp, Hn.
      repeat split. intros k. unfold balance_of. simpl.
      rewrite !default_insert. case_decide; [reflexivity|apply Hb].
    + rewrite (spend_points_refused env a d acc ctx s1) by lia.
      rewrite (spend_points_refused env a d acc ctx s2)
        by (rewrite <- Hb; lia).
      unfold same_ledger. simpl.
      repeat split; try assumption. intros k. unfold balance_of. simpl.
      rewrite !default_insert_same. apply Hb.
Qed.

Lemma same_ledger_run cs s1 s2 :
  same_ledger s1 s2 -> same_ledger (run cs s1) (run cs s2).
Proof.
  revert s1 s2. induction cs as [|c cs IH]; intros s1 s2 H; simpl.
  - exact H.
  - apply IH, same_ledger_exec, H.
Qed.

Lemma same_ledger_answers s1 s2 :
  same_ledger s1 s2 ->
  (forall env t descr acc ctx,
     returned (earn_points env t descr acc ctx) s1 =
     returned (earn_points env t descr acc ctx) s2) /\
  (forall env a descr acc ctx,
     returned (spend_points env a descr acc ctx) s1 =
     returned (spend_points env a descr acc ctx) s2) /\
  (forall k, returned (get_balance k) s1 = returned (get_balance k) s2) /\
  (forall k, returned (get_session_earnings k) s1 =
             returned (get_session_earnings k) s2) /\
  (forall k, returned (get_session_spending k) s1 =
             returned (get_session_spending k) s2) /\
  (forall k limit,
     returned (get_transaction_history k limit) s1 =
     returned (get_transaction_history k limit) s2) /\
  (forall k, returned (calculate_narrative_pressure k) s1 =
             returned (calculate_narrative_pressure k) s2) /\
  (forall t n, returned (apply_narrative_pressure_bonus t n) s1 =
               returned (apply_narrative_pressure_bonus t n) s2) /\
  returned get_active_opportunities s1 =
    returned get_active_opportunities s2 /\
  (forall k context,
     returned (generate_narrative_suggestions k context) s1 =
     returned (generate_narrative_suggestions k context) s2) /\
  returned get_system_status s1 = returned get_system_status s2.
Proof.
  intros (Hb & Hh & He & Hp & Hn).
  assert (Hpr : forall k, calculate_narrative_pressure k s1 =
                          (pressure_of_balance (balance_of s2 k), s1))
    by (intros k; by rewrite calculate_narrative_pressure_eq, Hb).
  repeat split.
  - intros. by rewrite !earn_points_returns_rate.
  - intros env a descr acc ctx. unfold returned.
    destruct (Z_le_gt_dec (activity_costs_get a 1)
                (balance_of s1 (charged_account acc))) as [Hle|Hgt].
    + rewrite (spend_points_afforded _ _ _ _ _ s1 Hle).
      by rewrite (spend_points_afforded env a descr acc ctx s2)
        by (rewrite <- Hb; exact Hle).
    + rewrite (spend_points_refused env a descr acc ctx s1) by lia.
      by rewrite (spend_points_refused env a descr acc ctx s2)
        by (rewrite <- Hb; lia).
  - intros k. apply Hb.
  - intros k. unfold returned, get_session_earnings, dict_get. simpl.
    by rewrite He.
  - intros k. unfold returned, get_session_spending, dict_get. simpl.
    by rewrite Hp.
  - intros k limit.
    unfold returned, get_transaction_history, dict_get, bind. simpl.
    rewrite Hh. by repeat case_match.
  - intros k. unfold returned.
    by rewrite Hpr, calculate_narrative_pressure_eq.
  - intros t n. unfold returned, apply_narrative_pressure_bonus, bind.
    rewrite Hpr, calculate_narrative_pressure_eq.
    unfold ret. by repeat case_match.
  - intros k context. unfold returned.
    by rewrite !generate_narrative_suggestions_eq, Hb.
  - unfold returned, get_system_status, bind, attr_read.
    cbn [attr_get earnings spending balances].
    rewrite He, Hp.
    rewrite (dict_sum_by_reading (player_balances s1) (player_balances s2))
      by apply Hb.
    destruct (int_truediv _ _); [|reflexivity].
    unfold get_active_opportunities, bind, attr_read, ret.
    by rewrite Hpr, calculate_narrative_pressure_eq.
Qed.

End SameLedger.

(** X13. A refused spend leaves no trace that any method can show.  It
    only binds the charged key to the balance it already read as, so the
    object it leaves reads as the one before.  And two objects that read
    alike (same balance under every key, identical histories, session
    counters and scene counter) stay so under every common sequence of
    calls, and every method of the class returns the same on both:
    earning, spending, the balance, the session counters, the history
    under every limit, the pressure, the bonus, the opportunities, the
    suggestions and the status report. *)
Theorem entries_reading_alike_are_invisible (s1 s2 : NarrativePointsSystem)
    (cs : list call) :
  same_ledger s1 s2 ->
  let r1 := run cs s1 in
  let r2 := run cs s2 in
  same_ledger r1 r2 /\
  (forall env a descr acc ctx,
     returned (spend_points env a descr acc ctx) r1 = false ->
     same_ledger r1 (after (spend_points env a descr acc ctx) r1)) /\
  (forall env t descr acc ctx,
     returned (earn_points env t descr acc ctx) r1 =
     returned (earn_points env t descr acc ctx) r2) /\
  (forall env a descr acc ctx,
     returned (spend_points env a descr acc ctx) r1 =
     returned (spend_points env a descr acc ctx) r2) /\
  (forall k, returned (get_balance k) r1 = returned (get_balance k) r2) /\
  (forall k, returned (get_session_earnings k) r1 =
             returned (get_session_earnings k) r2) /\
  (forall k, returned (get_session_spending k) r1 =
             returned (get_session_spending k) r2) /\
  (forall k limit,
     returned (get_transaction_history k limit) r1 =
     returned (get_transaction_history k limit) r2) /\
  (forall k, returned (calculate_narrative_pressure k) r1 =
             returned (calculate_narrative_pressure k) r2) /\
  (forall t n, returned (apply_narrative_pressure_bonus t n) r1 =
               returned (apply_narrative_pressure_bonus t n) r2) /\
  returned get_active_opportunities r1 =
    returned get_active_opportunities r2 /\
  (forall k context,
     returned (generate_narrative_suggestions k context) r1 =
     returned (generate_narrative_suggestions k context) r2) /\
  returned get_system_status r1 = returned get_system_status r2.
Proof.
  intros Hsame r1 r2.
  assert (Hrun : same_ledger r1 r2) by apply same_ledger_run, Hsame.
  split; [exact Hrun|]. split; [|apply same_ledger_answers, Hrun].
  intros env a descr acc ctx. unfold returned, after.
  destruct (Z_le_gt_dec (activity_costs_get a 1)
              (balance_of r1 (charged_account acc))) as [Hle|Hgt].
  - rewrite (spend_points_afforded _ _ _ _ _ r1 Hle). discriminate.
  - rewrite (spend_points_refused env a descr acc ctx r1) by lia.
    intros _. unfold same_ledger. simpl. repeat split.
    intros k. unfold balance_of. simpl. symmetry. apply default_insert_same.
Qed.

Lemma entries_reading_alike_are_invisible_witness :
  player_balances (exec alice_retcons NarrativePointsSystem_init) <>
    player_balances NarrativePointsSystem_init /\
  returned get_system_status
    (run [alice_earns; alice_foreshadows] NarrativePointsSystem_init) =
  returned get_system_status
    (run [alice_earns; alice_foreshadows]
       (exec alice_retcons NarrativePointsSystem_init)).
Proof.
  split.
  - intros H. apply (f_equal (fun d => d !! "alice"%string)) in H.
    vm_compute in H. discriminate.
  - assert (Hsame : same_ledger NarrativePointsSystem_init
                       (exec alice_retcons NarrativePointsSystem_init)).
    { unfold alice_retcons, exec, after.
      rewrite (spend_points_refused alice_env (Activity RETCON_SCENE)
                 "undo disaster" (Some "alice"%string) None
                 NarrativePointsSystem_init) by (vm_compute; reflexivity).
      unfold same_ledger. simpl. repeat split.
      intros k. unfold balance_of. simpl. symmetry.
      apply (default_insert_same ∅ 0 "alice" k). }
    pose proof (entries_reading_alike_are_invisible
                  NarrativePointsSystem_init
                  (exec alice_retcons NarrativePointsSystem_init)
                  [alice_earns; alice_foreshadows] Hsame) as P.
    cbv zeta in P.
    destruct P as (_ & _ & _ & _ & _ & _ & _ & _ & _ & _ & _ & _ & Hst).
    exact Hst.
Defined.
